(** * Huginn: the simulator supervisory loop (huginn/simulator.py)

    A shallow embedding of [SimulationBuilder] and [Simulator].  The flight
    dynamics engine ([fdmexec], JSBSim's executive) and the [Aircraft] facade
    built on it are external collaborators: they appear here as an interface,
    the class [FDMExec], and every result about the simulator is stated for
    an arbitrary implementation of it.

    Conventions.
    - Python floats (times, altitude, control setpoints) are rationals [Q]:
      the one addition and the comparisons of the source are exact here.
    - All objects of the source ([self.fdmexec], [self.fdm], [self.aircraft])
      alias one engine, so a simulator holds one model state of type [M].
    - Queries on the engine are pure functions of [M]; commands return the
      new model state.  The three commands of the tick may raise, the others
      do not.
    - [calls] is a ghost log of the commands issued to the engine, so that
      "no hold was issued" and "no tick was run" are statements about a
      value. *)

From Stdlib Require Import QArith ZArith List Bool Lqa String.
Import ListNotations.
Local Open Scope Q_scope.

(** [x < y] on floats, as a boolean. *)
Definition Qltb (x y : Q) : bool := negb (Qle_bool y x).

(** ** The collaborators *)

(** The four setpoints of [aircraft.controls]. *)
Inductive Control : Type := aileron | elevator | rudder | throttle.

(** What a call that may raise gives back. *)
Inductive reply (A : Type) : Type :=
| Done (a : A)
| Fault.
Arguments Done {A} a.
Arguments Fault {A}.

(** The fields [create_simulator] copies into [FDMBuilder]. *)
Record FDMBuilder : Type := mkFDMBuilder {
  fb_data_path : string;
  fb_dt : Q;
  fb_latitude : Q;
  fb_longitude : Q;
  fb_altitude : Q;
  fb_airspeed : Q;
  fb_heading : Q
}.

(** The operations the simulator uses on the engine and on the aircraft
    facade over it. *)
Class FDMExec (M : Type) : Type := {
  (* huginn.fdm *)
  TRIM_MODE_FULL : Z;
  create_fdm : FDMBuilder -> M;
  (* queries *)
  GetDeltaT : M -> Q;
  GetSimTime : M -> Q;
  Holding : M -> bool;
  IntegrationSuspended : M -> bool;
  altitude : M -> Q;                       (* fdm.position.altitude *)
  thrust : M -> Q;                         (* aircraft.engine.thrust *)
  get_control : Control -> M -> Q;         (* aircraft.controls.<c> *)
  (* commands *)
  Hold : M -> M;
  Resume : M -> M;
  ResumeIntegration : M -> M;
  ResetToInitialConditions : Z -> M -> M;
  RunIC : M -> bool * M;
  ProcessMessage : M -> reply unit * M;
  CheckIncrementalHold : M -> reply unit * M;
  Run : M -> reply bool * M;
  start_engines : M -> M;                  (* aircraft.start_engines() *)
  trim : Z -> M -> bool * M;               (* aircraft.trim(mode) *)
  set_control : Control -> Q -> M -> M     (* aircraft.controls.<c> = v *)
}.

(** The commands, as logged. *)
Inductive Command : Type :=
| CHold
| CResume
| CResumeIntegration
| CResetToInitialConditions (mode : Z)
| CRunIC
| CProcessMessage
| CCheckIncrementalHold
| CRun
| CStartEngines
| CTrim (mode : Z)
| CSetControl (c : Control) (v : Q).

(** The constants of [huginn.configuration]. *)
Record configuration : Type := mkConfiguration {
  DT : Q;
  LATITUDE : Q;
  LONGITUDE : Q;
  ALTITUDE : Q;
  AIRSPEED : Q;
  HEADING : Q
}.

(** ** The simulator *)

Record Simulator (M : Type) : Type := mkSimulator {
  fdmexec : M;
  trim_mode : Z;
  _crashed : bool;
  start_paused : bool;
  calls : list Command                      (* ghost *)
}.
Arguments mkSimulator {M}.
Arguments fdmexec {M}.
Arguments trim_mode {M}.
Arguments _crashed {M}.
Arguments start_paused {M}.
Arguments calls {M}.

Record SimulationBuilder : Type := mkSimulationBuilder {
  data_path : string;
  sb_dt : Q;
  latitude : Q;
  longitude : Q;
  sb_altitude : Q;
  airspeed : Q;
  heading : Q;
  sb_trim_mode : Z;
  sb_start_paused : bool
}.

Inductive exn : Type := ModelFault | SimulationError.

(** How a method call ends: it returns a value or raises, and either way
    leaves the object in some state. *)
Inductive outcome (M A : Type) : Type :=
| Return (a : A) (s : Simulator M)
| Raise (e : exn) (s : Simulator M).
Arguments Return {M A} a s.
Arguments Raise {M A} e s.

(** How a call that builds its own object ends. *)
Inductive completion (A : Type) : Type :=
| Returned (a : A)
| Raised (e : exn).
Arguments Returned {A} a.
Arguments Raised {A} e.

Section Simulator.

Context {M : Type} {fdm : FDMExec M}.

Definition Sim (A : Type) : Type := Simulator M -> outcome M A.

Definition ret {A} (a : A) : Sim A := fun s => Return a s.

Definition bind {A B} (c : Sim A) (k : A -> Sim B) : Sim B :=
  fun s =>
    match c s with
    | Return a s' => k a s'
    | Raise e s' => Raise e s'
    end.

Notation "x <- c1 ;; c2" := (bind c1 (fun x => c2))
  (at level 61, c1 at next level, right associativity).
Notation "c1 ;; c2" := (bind c1 (fun _ => c2))
  (at level 61, right associativity).

Definition raise {A} (e : exn) : Sim A := fun s => Raise e s.

(** [try: body except: handler] with a bare [except]. *)
Definition try_except {A} (body handler : Sim A) : Sim A :=
  fun s =>
    match body s with
    | Return a s' => Return a s'
    | Raise _ s' => handler s'
    end.

Definition gets {A} (f : Simulator M -> A) : Sim A := fun s => Return (f s) s.

Definition when (b : bool) (c : Sim unit) : Sim unit :=
  if b then c else ret tt.

Definition with_fdmexec (m : M) (s : Simulator M) : Simulator M :=
  mkSimulator m (trim_mode s) (_crashed s) (start_paused s) (calls s).

Definition log (c : Command) (s : Simulator M) : Simulator M :=
  mkSimulator (fdmexec s) (trim_mode s) (_crashed s) (start_paused s)
              (calls s ++ [c]).

(** [self._crashed = b] *)
Definition set_crashed (b : bool) : Sim unit :=
  fun s =>
    Return tt (mkSimulator (fdmexec s) (trim_mode s) b (start_paused s)
                           (calls s)).

(** A command that returns nothing. *)
Definition command (c : Command) (f : M -> M) : Sim unit :=
  fun s => Return tt (log c (with_fdmexec (f (fdmexec s)) s)).

(** A command that returns a value. *)
Definition command_ret {A} (c : Command) (f : M -> A * M) : Sim A :=
  fun s =>
    let (a, m) := f (fdmexec s) in Return a (log c (with_fdmexec m s)).

(** A command that may raise. *)
Definition fallible {A} (c : Command) (f : M -> reply A * M) : Sim A :=
  fun s =>
    let (r, m) := f (fdmexec s) in
    let s' := log c (with_fdmexec m s) in
    match r with
    | Done a => Return a s'
    | Fault => Raise ModelFault s'
    end.

(** [Simulator.__init__] *)
Definition Simulator_init (fdmexec : M) : Simulator M :=
  mkSimulator fdmexec TRIM_MODE_FULL false false [].

(** The properties. *)
Definition crashed (s : Simulator M) : bool := _crashed s.
Definition dt (s : Simulator M) : Q := GetDeltaT (fdmexec s).
Definition simulation_time (s : Simulator M) : Q := GetSimTime (fdmexec s).

Definition pause : Sim unit := command CHold Hold.

Definition resume : Sim unit :=
  c <- gets crashed ;;
  if c then ret tt
  else
    suspended <- gets (fun s => IntegrationSuspended (fdmexec s)) ;;
    when suspended (command CResumeIntegration ResumeIntegration) ;;
    command CResume Resume.

Definition is_paused (s : Simulator M) : bool := Holding (fdmexec s).

(** [aircraft.controls.<c> = v] *)
Definition assign (c : Control) (v : Q) : Sim unit :=
  command (CSetControl c v) (set_control c v).

(** The [try] block of [step]. *)
Definition tick : Sim bool :=
  fallible CProcessMessage ProcessMessage ;;
  fallible CCheckIncrementalHold CheckIncrementalHold ;;
  fallible CRun Run.

(** The altitude is a query, so reading it also when [crashed] is set (the
    source does not, [and] being lazy) changes nothing. *)
Definition step : Sim bool :=
  c <- gets crashed ;;
  alt <- gets (fun s => altitude (fdmexec s)) ;;
  if negb c && Qltb alt 0 then
    pause ;;
    set_crashed true ;;
    ret true
  else
    c <- gets crashed ;;
    if c then ret true
    else
      was_paused <- gets is_paused ;;
      when was_paused resume ;;
      run_result <- try_except tick (raise SimulationError) ;;
      if run_result then
        when was_paused pause ;;
        ret true
      else
        when was_paused pause ;;
        ret false.

Definition reset : Sim bool :=
  set_crashed false ;;
  pause ;;
  assign aileron 0 ;;
  assign elevator 0 ;;
  assign rudder 0 ;;
  assign throttle 0 ;;
  command (CResetToInitialConditions 0%Z) (ResetToInitialConditions 0%Z) ;;
  ic <- command_ret CRunIC RunIC ;;
  if negb ic then ret false
  else
    command CStartEngines start_engines ;;
    mode <- gets trim_mode ;;
    trim_result <- command_ret (CTrim mode) (trim mode) ;;
    when (negb trim_result)
      (assign aileron 0 ;;
       assign elevator 0 ;;
       assign rudder 0 ;;
       assign throttle 0) ;;
    ok <- step ;;
    if negb ok then ret false
    else
      _ <- gets (fun s => thrust (fdmexec s)) ;;     (* logged *)
      sp <- gets start_paused ;;
      when (negb sp) resume ;;
      ret true.

(** The [while] loop of [run_for]; [None] when [fuel] iterations were not
    enough to leave it. *)
Fixpoint run_for_loop (fuel : nat) (end_time : Q) (s : Simulator M)
  : option (outcome M bool) :=
  if Qle_bool (GetSimTime (fdmexec s)) end_time then
    match fuel with
    | O => None
    | S fuel' =>
        match step s with
        | Return result s' =>
            if negb result then Some (Return false s')
            else run_for_loop fuel' end_time s'
        | Raise e s' => Some (Raise e s')
        end
    end
  else Some (Return true s).

Definition run_for (fuel : nat) (time_to_run : Q) (s : Simulator M)
  : option (outcome M bool) :=
  if Qltb time_to_run 0 then Some (Return false s)
  else
    let start_time := GetSimTime (fdmexec s) in
    let end_time := start_time + time_to_run in
    run_for_loop fuel end_time s.

Definition run : Sim bool :=
  holding <- gets (fun s => Holding (fdmexec s)) ;;
  if negb holding then
    result <- step ;;
    ret result
  else ret true.

Definition set_aircraft_controls (a e r t : Q) : Sim unit :=
  assign aileron a ;;
  assign elevator e ;;
  assign rudder r ;;
  assign throttle t.

(** [SimulationBuilder.__init__] *)
Definition SimulationBuilder_init (cfg : configuration) (data_path : string)
  : SimulationBuilder :=
  mkSimulationBuilder data_path (DT cfg) (LATITUDE cfg) (LONGITUDE cfg)
                      (ALTITUDE cfg) (AIRSPEED cfg) (HEADING cfg)
                      TRIM_MODE_FULL false.

(** Lines 40-69 of [create_simulator]: the engine is built, the engines are
    started, trim is tried, the controls are zeroed when it fails, and the
    [Simulator] is constructed over that engine with the builder's trim mode
    and pause policy. *)
Definition new_simulator (b : SimulationBuilder) : Simulator M :=
  let fdm_builder :=
    mkFDMBuilder (data_path b) (sb_dt b) (latitude b) (longitude b)
                 (sb_altitude b) (airspeed b) (heading b) in
  let engine := create_fdm fdm_builder in
  let started := start_engines engine in
  let (trim_result, trimmed) := trim (sb_trim_mode b) started in
  if negb trim_result then
    mkSimulator
      (set_control throttle 0
         (set_control rudder 0
            (set_control elevator 0 (set_control aileron 0 trimmed))))
      (sb_trim_mode b) false (sb_start_paused b)
      [CStartEngines; CTrim (sb_trim_mode b);
       CSetControl aileron 0; CSetControl elevator 0;
       CSetControl rudder 0; CSetControl throttle 0]
  else
    mkSimulator trimmed (sb_trim_mode b) false (sb_start_paused b)
                [CStartEngines; CTrim (sb_trim_mode b)].

Definition create_simulator (b : SimulationBuilder)
  : completion (option (Simulator M)) :=
  let simulator := new_simulator b in
  match step simulator with
  | Return result s =>
      if negb result then Returned None
      else if sb_start_paused b then
        match pause s with
        | Return _ s' => Returned (Some s')
        | Raise e _ => Raised e
        end
      else Returned (Some s)
  | Raise e _ => Raised e
  end.

(** The state a call leaves the object in, however it ends. *)
Definition after {A} (c : Sim A) (s : Simulator M) : Simulator M :=
  match c s with
  | Return _ s' | Raise _ s' => s'
  end.

(** A caller that calls [step] [n] times in a row, stopping at the first
    failure. *)
Fixpoint step_times (n : nat) : Sim bool :=
  match n with
  | O => ret true
  | S n' =>
      ok <- step ;;
      if ok then step_times n' else ret false
  end.

(** The four assignments of 0.0 to the setpoints, on the engine. *)
Definition neutral (m : M) : M :=
  set_control throttle 0
    (set_control rudder 0 (set_control elevator 0 (set_control aileron 0 m))).

(** The [try] block of [step], on the engine alone. *)
Definition tick_model (m : M) : reply bool * M :=
  match ProcessMessage m with
  | (Fault, m1) => (Fault, m1)
  | (Done _, m1) =>
      match CheckIncrementalHold m1 with
      | (Fault, m2) => (Fault, m2)
      | (Done _, m2) => Run m2
      end
  end.

(** [reset] up to the initial-condition solver: the engine it is run on. *)
Definition to_initial_conditions (s : Simulator M) : M :=
  ResetToInitialConditions 0%Z (neutral (Hold (fdmexec s))).

(** [reset] from there to its validation [step], when the solver succeeds:
    the object that [step] is called on. *)
Definition at_validation (s : Simulator M) : Simulator M :=
  let solved := snd (RunIC (to_initial_conditions s)) in
  let (trim_result, trimmed) := trim (trim_mode s) (start_engines solved) in
  let prefix :=
    calls s ++
    [CHold; CSetControl aileron 0; CSetControl elevator 0;
     CSetControl rudder 0; CSetControl throttle 0;
     CResetToInitialConditions 0%Z; CRunIC; CStartEngines;
     CTrim (trim_mode s)] in
  if trim_result then
    mkSimulator trimmed (trim_mode s) false (start_paused s) prefix
  else
    mkSimulator (neutral trimmed) (trim_mode s) false (start_paused s)
                (prefix ++
                 [CSetControl aileron 0; CSetControl elevator 0;
                  CSetControl rudder 0; CSetControl throttle 0]).

(** What the collaborators are assumed to do, where a statement needs it. *)

(** [Hold] makes [Holding] true. *)
Definition hold_contract : Prop := forall m, Holding (Hold m) = true.

(** [Resume] clears the hold flag and leaves the suspension flag alone;
    [ResumeIntegration] clears the suspension flag. *)
Definition resume_contract : Prop :=
  (forall m, Holding (Resume m) = false) /\
  (forall m, IntegrationSuspended (Resume m) = IntegrationSuspended m) /\
  (forall m, IntegrationSuspended (ResumeIntegration m) = false).

(** The setpoints are four independent cells, and holding, resuming and the
    three commands of the tick do not write them. *)
Definition controls_contract : Prop :=
  (forall c v m, get_control c (set_control c v m) = v) /\
  (forall c c' v m,
      c <> c' -> get_control c' (set_control c v m) = get_control c' m) /\
  (forall c m, get_control c (Hold m) = get_control c m) /\
  (forall c m, get_control c (Resume m) = get_control c m) /\
  (forall c m, get_control c (ResumeIntegration m) = get_control c m) /\
  (forall c m, get_control c (snd (ProcessMessage m)) = get_control c m) /\
  (forall c m, get_control c (snd (CheckIncrementalHold m)) = get_control c m) /\
  (forall c m, get_control c (snd (Run m)) = get_control c m).

(** [Hold] does not move the clock. *)
Definition hold_keeps_time : Prop :=
  forall m, GetSimTime (Hold m) = GetSimTime m.

(** Writing a setpoint does not touch the hold flag. *)
Definition controls_keep_hold : Prop :=
  forall c v m, Holding (set_control c v m) = Holding m.

(** The object an ended call leaves behind. *)
Definition state_of {A} (o : outcome M A) : Simulator M :=
  match o with
  | Return _ s | Raise _ s => s
  end.

(** The methods a caller can invoke on a simulator. *)
Inductive Method : Type :=
| call_pause
| call_resume
| call_step
| call_run
| call_reset
| call_set_aircraft_controls (a e r t : Q)
| call_run_for (fuel : nat) (time_to_run : Q).

(** One call: the object afterwards, whether the call returned or raised;
    [None] when a [run_for] was not over within its fuel. *)
Definition invoke (m : Method) (s : Simulator M) : option (Simulator M) :=
  match m with
  | call_pause => Some (after pause s)
  | call_resume => Some (after resume s)
  | call_step => Some (after step s)
  | call_run => Some (after run s)
  | call_reset => Some (after reset s)
  | call_set_aircraft_controls a e r t =>
      Some (after (set_aircraft_controls a e r t) s)
  | call_run_for fuel t => option_map state_of (run_for fuel t s)
  end.

(** A caller's session: calls made one after the other on the same
    object. *)
Fixpoint session (ms : list Method) (s : Simulator M)
  : option (Simulator M) :=
  match ms with
  | [] => Some s
  | m :: ms' =>
      match invoke m s with
      | Some s' => session ms' s'
      | None => None
      end
  end.

(** The [FDMBuilder] that [create_simulator] fills in from a builder. *)
Definition fdm_builder_of (b : SimulationBuilder) : FDMBuilder :=
  mkFDMBuilder (data_path b) (sb_dt b) (latitude b) (longitude b)
               (sb_altitude b) (airspeed b) (heading b).

(** The values a Python float can take: a number, which is a rational, or
    one of [inf], [-inf] and [nan]. *)
Inductive pyfloat : Type :=
| finite (q : Q)
| plus_infinity
| minus_infinity
| nan.

(** [x < 0.0] on a float: false on [nan]. *)
Definition float_ltb_0 (x : pyfloat) : bool :=
  match x with
  | finite q => Qltb q 0
  | minus_infinity => true
  | plus_infinity | nan => false
  end.

(** [x <= y] for a number [x] and a float [y]: false on [nan]. *)
Definition float_leb (x : Q) (y : pyfloat) : bool :=
  match y with
  | finite q => Qle_bool x q
  | plus_infinity => true
  | minus_infinity | nan => false
  end.

(** [x + y] for a number [x] and a float [y].  The sum of two numbers is
    rounded and can overflow: it is what [add] makes of them. *)
Definition float_add (add : Q -> Q -> pyfloat) (x : Q) (y : pyfloat)
  : pyfloat :=
  match y with
  | finite q => add x q
  | plus_infinity => plus_infinity
  | minus_infinity => minus_infinity
  | nan => nan
  end.

(** What rounding keeps of a sum: with a second number that is not negative
    it is [inf] or a number not below the first. *)
Definition monotone_addition (add : Q -> Q -> pyfloat) : Prop :=
  forall x t,
    0 <= t ->
    add x t = plus_infinity \/ exists e, add x t = finite e /\ x <= e.

(** The [while] loop of [run_for] with a float for the end time. *)
Fixpoint run_for_loop_float (fuel : nat) (end_time : pyfloat)
         (s : Simulator M) : option (outcome M bool) :=
  if float_leb (GetSimTime (fdmexec s)) end_time then
    match fuel with
    | O => None
    | S fuel' =>
        match step s with
        | Return result s' =>
            if negb result then Some (Return false s')
            else run_for_loop_float fuel' end_time s'
        | Raise e s' => Some (Raise e s')
        end
    end
  else Some (Return true s).

(** [run_for] with a float for the duration and floating-point addition for
    the end time. *)
Definition run_for_float (fuel : nat) (add : Q -> Q -> pyfloat)
           (time_to_run : pyfloat) (s : Simulator M)
  : option (outcome M bool) :=
  if float_ltb_0 time_to_run then Some (Return false s)
  else
    let start_time := GetSimTime (fdmexec s) in
    let end_time := float_add add start_time time_to_run in
    run_for_loop_float fuel end_time s.

(** The object after [n] turns of the loop of [run_for], each entered with
    the time not past [end_time] and each with a [step] that returned
    success; [None] when the loop does not make [n] such turns. *)
Fixpoint turns (n : nat) (end_time : pyfloat) (s : Simulator M)
  : option (Simulator M) :=
  match n with
  | O => Some s
  | S n' =>
      if float_leb (GetSimTime (fdmexec s)) end_time then
        match step s with
        | Return true s' => turns n' end_time s'
        | _ => None
        end
      else None
  end.

(** An outcome with which the loop stops before its test fails. *)
Definition stopping (o : outcome M bool) : Prop :=
  match o with
  | Return true _ => False
  | _ => True
  end.

(** A command that a crashed simulator still lets through: a hold or the
    write of a setpoint. *)
Definition harmless (c : Command) : Prop :=
  c = CHold \/ exists k v, c = CSetControl k v.

Definition is_reset (m : Method) : bool :=
  match m with
  | call_reset => true
  | _ => false
  end.

End Simulator.

(** ** An engine to run the simulator on *)

Module Bench.

Inductive Failure : Type := NoFault | FaultMessages | FaultHoldCheck | FaultRun.

Record Controls : Type := mkControls {
  c_aileron : Q;
  c_elevator : Q;
  c_rudder : Q;
  c_throttle : Q
}.

(** How the fallible operations of an engine end. *)
Record Script : Type := mkScript {
  ic_ok : bool;
  trim_ok : bool;
  run_ok : bool;
  failure : Failure
}.

(** Modelled from the spec: the engine and aircraft contract of section 6
    ([huginn.fdm], [huginn.aircraft] and JSBSim itself are not among the
    sources).  A run advances time by [delta_t] and the altitude by [climb],
    unless the engine is held or integration is suspended; the [script]
    decides how the operations that can fail end. *)
Record Engine : Type := mkEngine {
  sim_time : Q;
  delta_t : Q;
  holding : bool;
  suspended : bool;
  h : Q;
  climb : Q;
  ic_h : Q;
  controls : Controls;
  engines_on : bool;
  script : Script
}.

Definition get_ctl (c : Control) (k : Controls) : Q :=
  match c with
  | aileron => c_aileron k
  | elevator => c_elevator k
  | rudder => c_rudder k
  | throttle => c_throttle k
  end.

Definition set_ctl (c : Control) (v : Q) (k : Controls) : Controls :=
  match c with
  | aileron => mkControls v (c_elevator k) (c_rudder k) (c_throttle k)
  | elevator => mkControls (c_aileron k) v (c_rudder k) (c_throttle k)
  | rudder => mkControls (c_aileron k) (c_elevator k) v (c_throttle k)
  | throttle => mkControls (c_aileron k) (c_elevator k) (c_rudder k) v
  end.

Definition with_holding (b : bool) (e : Engine) : Engine :=
  mkEngine (sim_time e) (delta_t e) b (suspended e) (h e) (climb e) (ic_h e)
           (controls e) (engines_on e) (script e).

Definition with_suspended (b : bool) (e : Engine) : Engine :=
  mkEngine (sim_time e) (delta_t e) (holding e) b (h e) (climb e) (ic_h e)
           (controls e) (engines_on e) (script e).

Definition with_controls (k : Controls) (e : Engine) : Engine :=
  mkEngine (sim_time e) (delta_t e) (holding e) (suspended e) (h e) (climb e)
           (ic_h e) k (engines_on e) (script e).

Definition to_initial_conditions (e : Engine) : Engine :=
  mkEngine 0 (delta_t e) (holding e) (suspended e) (ic_h e) (climb e) (ic_h e)
           (controls e) (engines_on e) (script e).

Definition started (e : Engine) : Engine :=
  mkEngine (sim_time e) (delta_t e) (holding e) (suspended e) (h e) (climb e)
           (ic_h e) (controls e) true (script e).

Definition advanced (e : Engine) : Engine :=
  if holding e || suspended e then e
  else
    mkEngine (sim_time e + delta_t e) (delta_t e) (holding e) (suspended e)
             (h e + climb e) (climb e) (ic_h e) (controls e) (engines_on e)
             (script e).

Definition process_message (e : Engine) : reply unit * Engine :=
  match failure (script e) with
  | FaultMessages => (Fault, e)
  | _ => (Done tt, e)
  end.

Definition check_incremental_hold (e : Engine) : reply unit * Engine :=
  match failure (script e) with
  | FaultHoldCheck => (Fault, e)
  | _ => (Done tt, e)
  end.

Definition run_one (e : Engine) : reply bool * Engine :=
  match failure (script e) with
  | FaultRun => (Fault, e)
  | _ => (Done (run_ok (script e)), advanced e)
  end.

Definition trimmed (mode : Z) (e : Engine) : bool * Engine :=
  if trim_ok (script e) then
    (true, with_controls (mkControls 0 (-1 # 10) 0 (3 # 5)) e)
  else
    (false, with_controls (mkControls 1 1 1 1) e).

Definition ops (factory : FDMBuilder -> Engine) : FDMExec Engine := {|
  TRIM_MODE_FULL := 1%Z;
  create_fdm := factory;
  GetDeltaT := delta_t;
  GetSimTime := sim_time;
  Holding := holding;
  IntegrationSuspended := suspended;
  altitude := h;
  thrust := fun e => if engines_on e then c_throttle (controls e) else 0;
  get_control := fun c e => get_ctl c (controls e);
  Hold := with_holding true;
  Resume := with_holding false;
  ResumeIntegration := with_suspended false;
  ResetToInitialConditions := fun _ => to_initial_conditions;
  RunIC := fun e => (ic_ok (script e), e);
  ProcessMessage := process_message;
  CheckIncrementalHold := check_incremental_hold;
  Run := run_one;
  start_engines := started;
  trim := trimmed;
  set_control := fun c v e => with_controls (set_ctl c v (controls e)) e
|}.

(** The engine a builder gets: at rest at the configured altitude. *)
Definition factory (sc : Script) (rate : Q) (fb : FDMBuilder) : Engine :=
  mkEngine 0 (fb_dt fb) false false (fb_altitude fb) rate (fb_altitude fb)
           (mkControls 0 0 0 0) false sc.

Definition sound : Script := mkScript true true true NoFault.

Definition builder (alt : Q) (paused : bool) : SimulationBuilder :=
  mkSimulationBuilder "data" (1 # 10) 0 0 alt 30 0 1%Z paused.

(** An engine in flight at altitude [alt], changing altitude by [rate] a
    tick. *)
Definition engine (sc : Script) (alt rate : Q) (held : bool) : Engine :=
  mkEngine 0 (1 # 10) held false alt rate alt (mkControls 0 0 0 0) true sc.

Definition simulator (sc : Script) (alt rate : Q) (held crashed : bool)
  : Simulator Engine :=
  mkSimulator (engine sc alt rate held) 1%Z crashed false [].

(** The operations of an engine built at rest with a sound script. *)
Definition fdm : FDMExec Engine := ops (factory sound 0).

(** The same, with a run that returns failure. *)
Definition stalling : Script := mkScript true true false NoFault.
Definition fdm_stalling : FDMExec Engine := ops (factory stalling 0).

(** Level flight at 100, running. *)
Definition cruising : Simulator Engine := simulator sound 100 0 false false.

(** Level flight at 100, paused. *)
Definition parked : Simulator Engine := simulator sound 100 0 true false.

(** Below 0.0 and not yet detected, running or paused. *)
Definition below : Simulator Engine := simulator sound (-1) 0 false false.
Definition below_paused : Simulator Engine := simulator sound (-1) 0 true false.

(** Crashed: latched and held. *)
Definition wreck : Simulator Engine := simulator sound (-1) 0 true true.

(** At 1/20, losing 1/10 each tick of 1/10 s: below 0.0 after one tick. *)
Definition descending : Simulator Engine :=
  simulator sound (1 # 20) (-1 # 10) false false.

(** Paused, with a run that raises. *)
Definition faulty : Simulator Engine :=
  simulator (mkScript true true true FaultRun) 100 0 true false.

(** Crashed in flight, with initial conditions below 0.0 to reset to. *)
Definition sunk : Simulator Engine :=
  mkSimulator
    (mkEngine 5 (1 # 10) true false (-1) 0 (-1) (mkControls 0 0 0 0) true
              sound)
    1%Z true false [].

(** Crashed in flight, with initial conditions at 100 and a trim that
    fails. *)
Definition untrimmable : Simulator Engine :=
  mkSimulator
    (mkEngine 5 (1 # 10) true false (-1) 0 100 (mkControls 0 0 0 0) true
              (mkScript true false true NoFault))
    1%Z true false [].

(** The same operations on an engine with a pending incremental hold: its
    [CheckIncrementalHold] sets the hold flag. *)
Definition ops_incremental (factory : FDMBuilder -> Engine)
  : FDMExec Engine := {|
  TRIM_MODE_FULL := 1%Z;
  create_fdm := factory;
  GetDeltaT := delta_t;
  GetSimTime := sim_time;
  Holding := holding;
  IntegrationSuspended := suspended;
  altitude := h;
  thrust := fun e => if engines_on e then c_throttle (controls e) else 0;
  get_control := fun c e => get_ctl c (controls e);
  Hold := with_holding true;
  Resume := with_holding false;
  ResumeIntegration := with_suspended false;
  ResetToInitialConditions := fun _ => to_initial_conditions;
  RunIC := fun e => (ic_ok (script e), e);
  ProcessMessage := process_message;
  CheckIncrementalHold :=
    fun e =>
      match failure (script e) with
      | FaultHoldCheck => (Fault, e)
      | _ => (Done tt, with_holding true e)
      end;
  Run := run_one;
  start_engines := started;
  trim := trimmed;
  set_control := fun c v e => with_controls (set_ctl c v (controls e)) e
|}.

Definition fdm_incremental : FDMExec Engine :=
  ops_incremental (factory sound 0).

(** An engine whose trim fails, and one whose solver fails. *)
Definition untrimmed : Script := mkScript true false true NoFault.
Definition fdm_untrimmed : FDMExec Engine := ops (factory untrimmed 0).
Definition unsolvable : Simulator Engine :=
  simulator (mkScript false true true NoFault) 100 0 false false.

(** Level flight with a run that returns failure. *)
Definition stalled : Simulator Engine := simulator stalling 100 0 false false.

(** Addition of two numbers when no rounding is needed. *)
Definition add (x y : Q) : pyfloat := finite (x + y).

(** Sound, running, airborne and not sinking, with a step of 1/10. *)
Definition level (s : Simulator Engine) : Prop :=
  _crashed s = false /\
  holding (fdmexec s) = false /\
  suspended (fdmexec s) = false /\
  script (fdmexec s) = sound /\
  delta_t (fdmexec s) = 1 # 10 /\
  0 <= climb (fdmexec s) /\
  0 <= h (fdmexec s).

End Bench.

(** ** Properties of the simulator *)

Lemma Qltb_true (x y : Q) : Qltb x y = true <-> x < y.
Proof.
  unfold Qltb. rewrite negb_true_iff, <- not_true_iff_false, Qle_bool_iff.
  split; [apply Qnot_le_lt | apply Qlt_not_le].
Qed.

Lemma Qltb_false (x y : Q) : Qltb x y = false <-> y <= x.
Proof.
  unfold Qltb. rewrite negb_false_iff. apply Qle_bool_iff.
Qed.

Ltac unfold_sim :=
  unfold step, step_times, resume, pause, tick, when, assign, command,
    command_ret, fallible, try_except, raise, set_crashed, gets, bind, ret,
    log, with_fdmexec, crashed, is_paused, after in *;
  cbn [fdmexec trim_mode _crashed start_paused calls] in *.

Section Properties.

Context {M : Type} {fdm : FDMExec M}.

(** *** [step] on the three branches *)

Lemma step_crash_branch (s : Simulator M) :
  crashed s = false ->
  altitude (fdmexec s) < 0 ->
  step s =
  Return true
    (mkSimulator (Hold (fdmexec s)) (trim_mode s) true (start_paused s)
                 (calls s ++ [CHold])).
Proof.
  intros Hc Halt. apply Qltb_true in Halt.
  destruct s as [m tm c sp l]. unfold_sim. subst c.
  rewrite Halt. reflexivity.
Qed.

Lemma step_crashed_branch (s : Simulator M) :
  crashed s = true -> step s = Return true s.
Proof.
  intros Hc. destruct s as [m tm c sp l]. unfold_sim. subst c.
  reflexivity.
Qed.

(** On the third branch [step] is: resume when paused, tick, hold again when
    it was paused. *)
Lemma step_tick_branch (s : Simulator M) :
  crashed s = false ->
  0 <= altitude (fdmexec s) ->
  step s =
  match tick (after (when (is_paused s) resume) s) with
  | Return run_result s' =>
      Return run_result (after (when (is_paused s) pause) s')
  | Raise _ s' => Raise SimulationError s'
  end.
Proof.
  intros Hc Halt. apply Qltb_false in Halt.
  destruct s as [m tm c sp l]. cbn in Hc, Halt. subst c.
  unfold step, bind at 1 2, gets at 1 2. cbn [_crashed fdmexec crashed].
  unfold crashed. cbn [_crashed fdmexec].
  rewrite Halt. cbn [negb andb].
  unfold bind at 1, gets at 1. cbn [_crashed].
  unfold bind at 1, gets at 1.
  set (s := mkSimulator m tm false sp l).
  unfold after. unfold bind at 1.
  destruct (when (is_paused s) resume s) as [[] s1|e s1] eqn:Hr.
  - unfold bind at 1, try_except, raise.
    destruct (tick s1) as [r s2|e s2]; [|reflexivity].
    unfold when, bind, ret, pause, command.
    destruct r, (is_paused s); reflexivity.
  - exfalso. revert Hr. unfold_sim. subst s. cbn.
    destruct (Holding m); cbn; [|discriminate].
    destruct (IntegrationSuspended m); cbn; discriminate.
Qed.

(** C3: on a simulator that has not crashed, a [step] entered with the
    altitude below 0.0 holds the engine, latches [crashed] and returns
    success; it issues the hold and nothing else (no tick), whatever the
    pause state and whatever the tick would have done; and with an engine
    whose [Hold] makes [Holding] true, [is_paused] is true afterwards. *)
Theorem step_detects_crash (s : Simulator M) :
  hold_contract ->
  crashed s = false ->
  altitude (fdmexec s) < 0 ->
  exists s',
    step s = Return true s' /\
    fdmexec s' = Hold (fdmexec s) /\
    crashed s' = true /\
    calls s' = calls s ++ [CHold] /\
    trim_mode s' = trim_mode s /\
    start_paused s' = start_paused s /\
    is_paused s' = true.
Proof.
  intros HH Hc Halt. eexists. split; [apply step_crash_branch; assumption|].
  cbn. repeat split. apply HH.
Qed.

(** C4: on a crashed simulator [step] returns success and leaves the whole
    object as it was: engine state, flags and the log of commands (so no
    tick, no hold and no resume); the same holds for any number of calls in
    a row, and the engine is held afterwards if it was before. *)
Theorem step_after_crash_noop (s : Simulator M) :
  crashed s = true ->
  step s = Return true s /\
  (forall n, step_times n s = Return true s) /\
  is_paused (after step s) = is_paused s.
Proof.
  intros Hc. pose proof (step_crashed_branch s Hc) as Hs. split; [exact Hs|].
  split.
  - induction n as [|n IH]; [reflexivity|].
    cbn [step_times]. unfold bind. rewrite Hs. exact IH.
  - unfold after. rewrite Hs. reflexivity.
Qed.

(** *** [resume] *)

(** C6: [resume] on a crashed simulator returns without touching the object
    (so the engine keeps its hold state, and nothing is raised); otherwise it
    issues [ResumeIntegration] exactly when the engine reports its
    integration suspended, and then [Resume]; with an engine that keeps the
    resume contract, neither flag is set afterwards. *)
Theorem resume_guarded (s : Simulator M) :
  resume_contract ->
  (crashed s = true -> resume s = Return tt s) /\
  (crashed s = false ->
   exists s',
     resume s = Return tt s' /\
     fdmexec s' =
       Resume (if IntegrationSuspended (fdmexec s)
               then ResumeIntegration (fdmexec s) else fdmexec s) /\
     calls s' =
       calls s ++
       (if IntegrationSuspended (fdmexec s) then [CResumeIntegration] else []) ++
       [CResume] /\
     crashed s' = false /\
     is_paused s' = false /\
     IntegrationSuspended (fdmexec s') = false).
Proof.
  intros (HR & HRS & HRI). destruct s as [m tm c sp l]. split; intros Hc;
    cbn in Hc; subst c.
  - reflexivity.
  - unfold_sim. destruct (IntegrationSuspended m) eqn:Hs; cbn;
      eexists; (split; [reflexivity|]); cbn; rewrite ?HR, ?HRS, ?HRI, ?Hs;
      rewrite <- ?app_assoc; repeat split; reflexivity.
Qed.

(** *** [run_for] *)

(** C9: a negative duration is rejected before anything else: [run_for]
    returns failure and the object is as it was, so no [step] was made, no
    command reached the engine and [simulation_time] is unchanged. *)
Theorem run_for_negative (fuel : nat) (t : Q) (s : Simulator M) :
  t < 0 ->
  run_for fuel t s = Some (Return false s) /\
  (forall s', run_for fuel t s = Some (Return false s') ->
              simulation_time s' = simulation_time s /\ calls s' = calls s).
Proof.
  intros Ht. apply Qltb_true in Ht. unfold run_for. rewrite Ht.
  split; [reflexivity|]. intros s' H. injection H as <-. split; reflexivity.
Qed.

(** *** The tick *)

(** [tick] is [tick_model] on the engine, with the flags of the object
    untouched and the commands it reached logged. *)
Lemma tick_returns (s s' : Simulator M) (r : bool) :
  tick s = Return r s' ->
  tick_model (fdmexec s) = (Done r, fdmexec s') /\
  trim_mode s' = trim_mode s /\
  crashed s' = crashed s /\
  start_paused s' = start_paused s /\
  calls s' = calls s ++ [CProcessMessage; CCheckIncrementalHold; CRun].
Proof.
  destruct s as [m tm c sp l]. unfold tick_model. unfold_sim.
  destruct (ProcessMessage m) as [[[]|] m1]; cbn; [|discriminate].
  destruct (CheckIncrementalHold m1) as [[[]|] m2]; cbn; [|discriminate].
  destruct (Run m2) as [[r'|] m3]; cbn; [|discriminate].
  intros H. injection H as <- <-. cbn. rewrite <- !app_assoc.
  repeat split; reflexivity.
Qed.

Lemma tick_raises (s s' : Simulator M) (e : exn) :
  tick s = Raise e s' ->
  tick_model (fdmexec s) = (Fault, fdmexec s') /\
  trim_mode s' = trim_mode s /\
  crashed s' = crashed s /\
  start_paused s' = start_paused s /\
  exists cmds, calls s' = calls s ++ cmds /\ ~ In CHold cmds.
Proof.
  destruct s as [m tm c sp l]. unfold tick_model. unfold_sim.
  destruct (ProcessMessage m) as [[[]|] m1]; cbn.
  - destruct (CheckIncrementalHold m1) as [[[]|] m2]; cbn.
    + destruct (Run m2) as [[r'|] m3]; cbn; [discriminate|].
      intros H. injection H as <- <-. cbn. rewrite <- !app_assoc.
      repeat split. eexists. split; [reflexivity|].
      cbn. intros [H|[H|[H|[]]]]; discriminate.
    + intros H. injection H as <- <-. cbn. rewrite <- !app_assoc.
      repeat split. eexists. split; [reflexivity|].
      cbn. intros [H|[H|[]]]; discriminate.
  - intros H. injection H as <- <-. cbn.
    repeat split. eexists. split; [reflexivity|].
    cbn. intros [H|[]]; discriminate.
Qed.

Lemma tick_total (s : Simulator M) :
  match tick_model (fdmexec s) with
  | (Done r, _) => exists s', tick s = Return r s'
  | (Fault, _) => exists s', tick s = Raise ModelFault s'
  end.
Proof.
  destruct s as [m tm c sp l]. unfold tick_model. unfold_sim.
  destruct (ProcessMessage m) as [[[]|] m1]; cbn; [|eexists; reflexivity].
  destruct (CheckIncrementalHold m1) as [[[]|] m2]; cbn;
    [|eexists; reflexivity].
  destruct (Run m2) as [[r'|] m3]; cbn; eexists; reflexivity.
Qed.

(** The engine faults in the tick exactly when one of its three commands
    does, each being reached only if the ones before it returned. *)
Lemma tick_model_faults (m : M) :
  fst (tick_model m) = Fault <->
  fst (ProcessMessage m) = Fault \/
  (fst (ProcessMessage m) = Done tt /\
   fst (CheckIncrementalHold (snd (ProcessMessage m))) = Fault) \/
  (fst (ProcessMessage m) = Done tt /\
   fst (CheckIncrementalHold (snd (ProcessMessage m))) = Done tt /\
   fst (Run (snd (CheckIncrementalHold (snd (ProcessMessage m))))) = Fault).
Proof.
  unfold tick_model.
  destruct (ProcessMessage m) as [[[]|] m1]; cbn.
  - destruct (CheckIncrementalHold m1) as [[[]|] m2]; cbn.
    + split; [intros H; right; right; auto|].
      intros [H|[[_ H]|(_ & _ & H)]]; try discriminate; exact H.
    + split; [intros _; right; left; auto|reflexivity].
  - split; [intros _; left; reflexivity|reflexivity].
Qed.

(** [resume] on a simulator that has not crashed. *)
Lemma resume_running (s : Simulator M) :
  crashed s = false ->
  resume s =
  Return tt
    (mkSimulator
       (Resume (if IntegrationSuspended (fdmexec s)
                then ResumeIntegration (fdmexec s) else fdmexec s))
       (trim_mode s) false (start_paused s)
       (calls s ++
        (if IntegrationSuspended (fdmexec s) then [CResumeIntegration] else [])
        ++ [CResume])).
Proof.
  destruct s as [m tm c sp l]. intros Hc. unfold_sim. subst c. cbn.
  destruct (IntegrationSuspended m); cbn; rewrite <- ?app_assoc; reflexivity.
Qed.

(** C5, amended: on a simulator that has not crashed, whose engine is held
    and whose altitude is not below 0.0 on entry, [step] resumes the engine,
    runs the three commands of one tick and holds the engine again, and
    returns what the run returned, success or failure alike; with an engine
    whose [Hold] makes [Holding] true the simulator is paused afterwards. *)
Theorem step_while_paused (s : Simulator M) :
  hold_contract ->
  crashed s = false ->
  is_paused s = true ->
  0 <= altitude (fdmexec s) ->
  forall run_result m',
    tick_model (fdmexec (after resume s)) = (Done run_result, m') ->
    exists s',
      step s = Return run_result s' /\
      fdmexec s' = Hold m' /\
      calls s' =
        calls (after resume s) ++
        [CProcessMessage; CCheckIncrementalHold; CRun; CHold] /\
      In CResume (calls (after resume s)) /\
      crashed s' = false /\
      is_paused s' = true.
Proof.
  intros HH Hc Hp Halt r m' Ht.
  rewrite (step_tick_branch s Hc Halt), Hp. cbn [when].
  assert (Hin : In CResume (calls (after resume s))).
  { unfold after. rewrite (resume_running s Hc). cbn [calls].
    apply in_or_app. right. apply in_or_app. right. left. reflexivity. }
  assert (Hc0 : crashed (after resume s) = false).
  { unfold after. rewrite (resume_running s Hc). reflexivity. }
  set (s0 := after resume s) in *.
  pose proof (tick_total s0) as Htot. rewrite Ht in Htot.
  destruct Htot as [s1 Hs1]. rewrite Hs1.
  apply tick_returns in Hs1. destruct Hs1 as (Hm & _ & Hc1 & _ & Hl).
  rewrite Ht in Hm. injection Hm as Hm.
  exists (log CHold (with_fdmexec (Hold (fdmexec s1)) s1)).
  split; [reflexivity|].
  unfold log, with_fdmexec, is_paused, crashed in *.
  cbn [fdmexec calls _crashed].
  rewrite Hl, <- app_assoc, <- Hm, Hc1, Hc0. repeat split; auto.
Qed.

(** C8: on a simulator that has not crashed and reaches the tick (altitude
    not below 0.0), if the engine faults in the tick, in the message
    dispatch, the incremental-hold check or the run, then [step] raises
    [SimulationError]: it neither returns nor raises the engine's own
    fault. *)
Theorem step_fault_raises (s : Simulator M) :
  crashed s = false ->
  0 <= altitude (fdmexec s) ->
  fst (tick_model (fdmexec (after (when (is_paused s) resume) s))) = Fault ->
  exists s',
    step s = Raise SimulationError s' /\
    fdmexec s' =
      snd (tick_model (fdmexec (after (when (is_paused s) resume) s))).
Proof.
  intros Hc Halt Hf. rewrite (step_tick_branch s Hc Halt).
  set (s0 := after (when (is_paused s) resume) s) in *.
  pose proof (tick_total s0) as Htot.
  destruct (tick_model (fdmexec s0)) as [[r|] m'] eqn:Ht; [discriminate|].
  destruct Htot as [s1 Hs1]. rewrite Hs1. eexists. split; [reflexivity|].
  apply tick_raises in Hs1. destruct Hs1 as (Hm & _).
  rewrite Ht in Hm. injection Hm as Hm. symmetry. exact Hm.
Qed.

(** C10, amended: when [step] is entered on a simulator that has not
    crashed, with the engine held and the altitude not below 0.0, and the
    engine faults in the tick, [step] raises [SimulationError] having issued
    [Resume] and no [Hold]: the engine is left as the faulting tick left it,
    the pause state of entry is not restored.  So the simulator that was
    paused on entry is not paused when the error reaches the caller, unless
    the tick itself changed the hold flag that [Resume] had cleared. *)
Theorem step_fault_leaves_resumed (s : Simulator M) :
  crashed s = false ->
  is_paused s = true ->
  0 <= altitude (fdmexec s) ->
  fst (tick_model (fdmexec (after resume s))) = Fault ->
  exists s' cmds,
    step s = Raise SimulationError s' /\
    calls s' = calls s ++ cmds /\
    In CResume cmds /\
    ~ In CHold cmds /\
    fdmexec s' = snd (tick_model (fdmexec (after resume s))) /\
    (resume_contract ->
     Holding (snd (tick_model (fdmexec (after resume s)))) =
     Holding (fdmexec (after resume s)) ->
     is_paused s' = false).
Proof.
  intros Hc Hp Halt Hf.
  rewrite (step_tick_branch s Hc Halt), Hp. cbn [when].
  set (s0 := after resume s) in *.
  pose proof (tick_total s0) as Htot.
  destruct (tick_model (fdmexec s0)) as [[r|] m'] eqn:Ht; [discriminate|].
  destruct Htot as [s1 Hs1]. rewrite Hs1.
  apply tick_raises in Hs1. destruct Hs1 as (Hm & _ & _ & _ & cmds & Hl & Hno).
  rewrite Ht in Hm. injection Hm as Hm. cbn [snd].
  assert (Hs0 : fdmexec s0 =
                Resume (if IntegrationSuspended (fdmexec s)
                        then ResumeIntegration (fdmexec s) else fdmexec s) /\
                calls s0 =
                calls s ++
                (if IntegrationSuspended (fdmexec s)
                 then [CResumeIntegration] else []) ++ [CResume]).
  { subst s0. unfold after. rewrite (resume_running s Hc). split; reflexivity. }
  destruct Hs0 as [Hm0 Hl0].
  exists s1, ((if IntegrationSuspended (fdmexec s)
               then [CResumeIntegration] else []) ++ [CResume] ++ cmds).
  split; [reflexivity|]. split; [|split; [|split; [|split]]].
  - rewrite Hl, Hl0, <- !app_assoc. reflexivity.
  - apply in_or_app. right. left. reflexivity.
  - intros Hin. apply in_app_or in Hin. destruct Hin as [Hin|Hin].
    + destruct (IntegrationSuspended (fdmexec s)); cbn in Hin;
        [destruct Hin as [Hin|[]]; discriminate|contradiction].
    + destruct Hin as [Hin|Hin]; [discriminate|contradiction].
  - symmetry. exact Hm.
  - intros (HR & _ & _) Hframe.
    unfold is_paused. rewrite <- Hm, Hframe, Hm0. apply HR.
Qed.

(** *** [create_simulator] *)

(** C7: [create_simulator] makes one [step] on the simulator it has just
    constructed (not crashed, with the builder's trim mode and pause policy,
    and no run issued yet) and decides on its result alone: failure gives
    [None], a fault goes to the caller, success gives the simulator, held
    first when [start_paused] is set (and then paused, with an engine whose
    [Hold] makes [Holding] true). *)
Theorem create_simulator_validates (b : SimulationBuilder) :
  hold_contract ->
  (crashed (new_simulator b) = false /\
   trim_mode (new_simulator b) = sb_trim_mode b /\
   start_paused (new_simulator b) = sb_start_paused b /\
   ~ In CRun (calls (new_simulator b))) /\
  (forall s',
      step (new_simulator b) = Return false s' ->
      create_simulator b = Returned None) /\
  (forall e s',
      step (new_simulator b) = Raise e s' ->
      create_simulator b = Raised e) /\
  (forall s',
      step (new_simulator b) = Return true s' ->
      sb_start_paused b = true ->
      create_simulator b = Returned (Some (after pause s')) /\
      calls (after pause s') = calls s' ++ [CHold] /\
      is_paused (after pause s') = true) /\
  (forall s',
      step (new_simulator b) = Return true s' ->
      sb_start_paused b = false ->
      create_simulator b = Returned (Some s')).
Proof.
  intros HH. split; [|split; [|split; [|split]]].
  - unfold new_simulator.
    destruct (trim _ _) as [[] m]; cbn; repeat split;
      intros H; repeat (destruct H as [H|H]; [discriminate|]); exact H.
  - intros s' H. unfold create_simulator. rewrite H. reflexivity.
  - intros e s' H. unfold create_simulator. rewrite H. reflexivity.
  - intros s' H Hp. unfold create_simulator. rewrite H, Hp. cbn.
    repeat split. apply HH.
  - intros s' H Hp. unfold create_simulator. rewrite H, Hp. reflexivity.
Qed.

(** *** [reset] *)

Lemma tick_model_controls (m : M) (c : Control) :
  controls_contract ->
  get_control c (snd (tick_model m)) = get_control c m.
Proof.
  intros (_ & _ & _ & _ & _ & HP & HC & HR). unfold tick_model.
  pose proof (HP c m) as H1.
  destruct (ProcessMessage m) as [[[]|] m1]; cbn in *; [|exact H1].
  pose proof (HC c m1) as H2.
  destruct (CheckIncrementalHold m1) as [[[]|] m2]; cbn in *;
    [|congruence].
  rewrite (HR c m2). congruence.
Qed.

Lemma neutral_controls (m : M) (c : Control) :
  controls_contract -> get_control c (neutral m) = 0.
Proof.
  intros (Hs & Ho & _). unfold neutral.
  destruct c;
    repeat first [ apply Hs | rewrite Ho by discriminate ].
Qed.

(** What [resume] leaves of the flags and of the setpoints. *)
Lemma resume_frame (b : bool) (s : Simulator M) :
  crashed (after (when b resume) s) = crashed s /\
  start_paused (after (when b resume) s) = start_paused s /\
  (controls_contract ->
   forall c, get_control c (fdmexec (after (when b resume) s)) =
             get_control c (fdmexec s)).
Proof.
  destruct b; [|repeat split].
  cbn [when]. destruct (crashed s) eqn:Hc.
  - unfold after, resume, bind, gets, ret. rewrite Hc. repeat split. exact Hc.
  - unfold after. rewrite (resume_running s Hc). cbn. repeat split; auto.
    intros (_ & _ & _ & HR & HRI & _) c. rewrite HR.
    destruct (IntegrationSuspended (fdmexec s)); [apply HRI|reflexivity].
Qed.

(** What a [step] that returns leaves of the flags and of the setpoints. *)
Lemma step_frame (s s' : Simulator M) (r : bool) :
  step s = Return r s' ->
  trim_mode s' = trim_mode s /\
  start_paused s' = start_paused s /\
  crashed s' = crashed s || Qltb (altitude (fdmexec s)) 0 /\
  (controls_contract ->
   forall c, get_control c (fdmexec s') = get_control c (fdmexec s)).
Proof.
  destruct (crashed s) eqn:Hc.
  - rewrite (step_crashed_branch s Hc). intros H. injection H as <- <-.
    rewrite Hc. repeat split.
  - destruct (Qltb (altitude (fdmexec s)) 0) eqn:Halt.
    + apply Qltb_true in Halt. rewrite (step_crash_branch s Hc Halt).
      intros H. injection H as <- <-. cbn. repeat split.
      intros (_ & _ & HH & _) c. apply HH.
    + apply Qltb_false in Halt. rewrite (step_tick_branch s Hc Halt).
      destruct (resume_frame (is_paused s) s) as (Hc0 & Hp0 & Hk0).
      assert (Htm0 : trim_mode (after (when (is_paused s) resume) s) =
                     trim_mode s).
      { destruct (is_paused s); [|reflexivity]. cbn [when]. unfold after.
        rewrite (resume_running s Hc). reflexivity. }
      set (s0 := after (when (is_paused s) resume) s) in *.
      destruct (tick s0) as [r1 s1|e s1] eqn:Ht; [|discriminate].
      apply tick_returns in Ht. destruct Ht as (Hm & Htm & Hc1 & Hp1 & _).
      intros H. injection H as <- <-.
      assert (Hpause : forall x : Simulator M,
                 trim_mode (after (when (is_paused s) pause) x) = trim_mode x /\
                 start_paused (after (when (is_paused s) pause) x) =
                 start_paused x /\
                 crashed (after (when (is_paused s) pause) x) = crashed x /\
                 (controls_contract ->
                  forall c,
                    get_control c
                      (fdmexec (after (when (is_paused s) pause) x)) =
                    get_control c (fdmexec x))).
      { intros x. destruct (is_paused s); cbn; repeat split.
        intros (_ & _ & HH & _) c. apply HH. }
      destruct (Hpause s1) as (Ha & Hb & Hd & He).
      rewrite Ha, Hb, Hd, Htm, Hp1, Hc1, Htm0, Hp0, Hc0, Hc.
      repeat split. intros K c. rewrite (He K c).
      replace (fdmexec s1) with (snd (tick_model (fdmexec s0)))
        by (rewrite Hm; reflexivity).
      rewrite (tick_model_controls _ c K). apply (Hk0 K).
Qed.

(** [resume] returns. *)
Lemma resume_returns (s : Simulator M) : exists s', resume s = Return tt s'.
Proof.
  destruct (crashed s) eqn:Hc.
  - exists s. unfold resume, bind, gets, ret. rewrite Hc. reflexivity.
  - eexists. apply (resume_running s Hc).
Qed.

(** [reset] is: the preparation, the validation [step], the final resume. *)
Lemma reset_unfold (s : Simulator M) :
  reset s =
  if fst (RunIC (to_initial_conditions s)) then
    match step (at_validation s) with
    | Return true s' =>
        Return true (after (when (negb (start_paused s')) resume) s')
    | Return false s' => Return false s'
    | Raise e s' => Raise e s'
    end
  else
    Return false
      (mkSimulator (snd (RunIC (to_initial_conditions s))) (trim_mode s)
                   false (start_paused s)
                   (calls s ++
                    [CHold; CSetControl aileron 0; CSetControl elevator 0;
                     CSetControl rudder 0; CSetControl throttle 0;
                     CResetToInitialConditions 0%Z; CRunIC])).
Proof.
  destruct s as [m tm c sp l].
  unfold at_validation, to_initial_conditions, neutral.
  cbv [reset bind ret gets set_crashed pause assign command command_ret log
       with_fdmexec fdmexec trim_mode _crashed start_paused calls].
  destruct (RunIC _) as [[] m2]; cbv [fst snd negb];
    [|rewrite <- !app_assoc; reflexivity].
  destruct (trim tm (start_engines m2)) as [[] m3]; cbv [negb when ret];
    rewrite <- !app_assoc; cbn [app];
    (destruct (step _) as [[] s'|e s']; [|reflexivity|reflexivity]);
    unfold after; destruct s' as [m' tm' c' [] l']; cbv beta iota;
    try reflexivity;
    match goal with
    | |- context [resume ?x] =>
        destruct (resume_returns x) as [s1 E]; rewrite E; reflexivity
    end.
Qed.

(** *** The loop of [run_for] *)

Lemma run_for_loop_S (fuel : nat) (end_time : Q) (s : Simulator M) :
  run_for_loop (S fuel) end_time s =
  if Qle_bool (GetSimTime (fdmexec s)) end_time then
    match step s with
    | Return result s' =>
        if negb result then Some (Return false s')
        else run_for_loop fuel end_time s'
    | Raise e s' => Some (Raise e s')
    end
  else Some (Return true s).
Proof. reflexivity. Qed.

(** Once the simulator has crashed with the end time not yet passed, no
    number of iterations leaves the loop. *)
Lemma run_for_loop_crashed (end_time : Q) (s : Simulator M) :
  crashed s = true ->
  Qle_bool (GetSimTime (fdmexec s)) end_time = true ->
  forall fuel, run_for_loop fuel end_time s = None.
Proof.
  intros Hc Ht fuel. induction fuel as [|fuel IH].
  - cbn. rewrite Ht. reflexivity.
  - rewrite run_for_loop_S, Ht, (step_crashed_branch s Hc). exact IH.
Qed.

(** [run_for] on a crashed simulator never returns, whatever the duration
    that is not negative. *)
Lemma run_for_crashed_diverges (t : Q) (s : Simulator M) :
  crashed s = true ->
  0 <= t ->
  forall fuel, run_for fuel t s = None.
Proof.
  intros Hc Ht fuel. unfold run_for.
  replace (Qltb t 0) with false by (symmetry; apply Qltb_false; exact Ht).
  apply run_for_loop_crashed; [exact Hc|].
  apply Qle_bool_iff. lra.
Qed.

(** When the loop is left with success, the time is strictly past the end
    time. *)
Lemma run_for_loop_success (fuel : nat) (end_time : Q) (s s' : Simulator M) :
  run_for_loop fuel end_time s = Some (Return true s') ->
  end_time < simulation_time s'.
Proof.
  revert s. induction fuel as [|fuel IH]; intros s.
  - cbn. destruct (Qle_bool _ _) eqn:Ht; [discriminate|].
    intros H. injection H as <-. apply Qnot_le_lt. intros Hle.
    apply Qle_bool_iff in Hle. unfold simulation_time in Hle. congruence.
  - rewrite run_for_loop_S. destruct (Qle_bool _ _) eqn:Ht.
    + destruct (step s) as [[] s1|e s1]; cbn [negb]; try discriminate.
      apply IH.
    + intros H. injection H as <-. apply Qnot_le_lt. intros Hle.
      apply Qle_bool_iff in Hle. unfold simulation_time in Hle. congruence.
Qed.

(** When [run_for] returns success, the duration was not negative and the
    time has advanced strictly past start + duration. *)
Lemma run_for_success (fuel : nat) (t : Q) (s s' : Simulator M) :
  run_for fuel t s = Some (Return true s') ->
  0 <= t /\ simulation_time s + t < simulation_time s'.
Proof.
  unfold run_for. destruct (Qltb t 0) eqn:Ht; [discriminate|].
  intros H. split; [apply Qltb_false; exact Ht|].
  apply (run_for_loop_success _ _ _ _ H).
Qed.

(** When the loop is left with failure, it is with the failure of a [step],
    and at once. *)
Lemma run_for_loop_failure (fuel : nat) (end_time : Q) (s s' : Simulator M) :
  run_for_loop fuel end_time s = Some (Return false s') ->
  exists s0, step s0 = Return false s'.
Proof.
  revert s. induction fuel as [|fuel IH]; intros s.
  - cbn. destruct (Qle_bool _ _); discriminate.
  - rewrite run_for_loop_S. destruct (Qle_bool _ _); [|discriminate].
    destruct (step s) as [[] s1|e s1] eqn:Hs; cbn [negb]; try discriminate.
    + apply IH.
    + intros H. injection H as <-. exists s. exact Hs.
Qed.

(** More fuel does not change a result. *)
Lemma run_for_loop_more_fuel (fuel : nat) (end_time : Q) (s : Simulator M)
      (o : outcome M bool) :
  run_for_loop fuel end_time s = Some o ->
  run_for_loop (S fuel) end_time s = Some o.
Proof.
  revert s. induction fuel as [|fuel IH]; intros s.
  - cbn. destruct (Qle_bool _ _); [discriminate|auto].
  - rewrite (run_for_loop_S (S fuel)), (run_for_loop_S fuel).
    destruct (Qle_bool _ _); [|auto].
    destruct (step s) as [[] s1|e s1]; cbn [negb]; auto.
Qed.

End Properties.

(** ** The simulator on the bench engine *)

Section Flights.

#[local] Existing Instance Bench.fdm.

Lemma bench_hold_contract (f : FDMBuilder -> Bench.Engine) :
  hold_contract (fdm := Bench.ops f).
Proof. intros m. reflexivity. Qed.

Lemma bench_resume_contract (f : FDMBuilder -> Bench.Engine) :
  resume_contract (fdm := Bench.ops f).
Proof. repeat split. Qed.

Lemma bench_controls_contract (f : FDMBuilder -> Bench.Engine) :
  controls_contract (fdm := Bench.ops f).
Proof.
  unfold controls_contract. cbn.
  split; [intros [] v m; reflexivity|].
  split; [intros [] [] v m H; try reflexivity; contradiction|].
  repeat split; intros c m; try reflexivity.
  - unfold Bench.process_message. destruct (Bench.failure _); reflexivity.
  - unfold Bench.check_incremental_hold.
    destruct (Bench.failure _); reflexivity.
  - unfold Bench.run_one, Bench.advanced.
    destruct (Bench.failure _); cbn; try reflexivity;
      destruct (Bench.holding m || Bench.suspended m); reflexivity.
Qed.

Ltac by_computation := vm_compute; first [reflexivity | discriminate].

(** In level flight [run_for] does return: eleven steps take the time from
    0 to 11/10, past the end time 1. *)
Example run_for_cruising :
  exists s',
    run_for 11 1 Bench.cruising = Some (Return true s') /\
    crashed s' = false /\
    simulation_time s' == 11 # 10.
Proof.
  eexists. split; [vm_compute; reflexivity|]. split; by_computation.
Qed.

(** C1: the aircraft of [Bench.descending] is below 0.0 after its first
    tick; the second [step] of [run_for 1] latches the crash and holds the
    engine at time 1/10, the steps after it change nothing, and the loop,
    waiting for a time past 1, is never left: [run_for] does not return,
    whatever the number of iterations allowed. *)
Theorem run_for_hangs_after_crash :
  (exists s2,
      step_times 2 Bench.descending = Return true s2 /\
      crashed s2 = true /\
      Qle_bool (simulation_time s2) (simulation_time Bench.descending + 1)
      = true) /\
  forall fuel, run_for fuel 1 Bench.descending = None.
Proof.
  split.
  - eexists. split; [vm_compute; reflexivity|]. split; reflexivity.
  - intros fuel. unfold run_for. change (Qltb 1 0) with false. cbv iota zeta.
    set (end_time := GetSimTime (fdmexec Bench.descending) + 1).
    destruct fuel as [|fuel]; [reflexivity|].
    rewrite run_for_loop_S.
    assert (E : step Bench.descending =
                Return true (after step Bench.descending))
      by (vm_compute; reflexivity).
    rewrite E.
    change (Qle_bool (GetSimTime (fdmexec Bench.descending)) end_time)
      with true.
    cbv iota. cbn [negb].
    destruct fuel as [|fuel]; [reflexivity|].
    rewrite run_for_loop_S.
    assert (E2 : step (after step Bench.descending) =
                 Return true (after step (after step Bench.descending)))
      by (vm_compute; reflexivity).
    rewrite E2.
    change (Qle_bool (GetSimTime (fdmexec (after step Bench.descending)))
                     end_time) with true.
    cbv iota. cbn [negb].
    apply run_for_loop_crashed; reflexivity.
Qed.

(** C2 as stated fails: from [Bench.sunk], whose initial conditions are
    below 0.0, [reset] returns with [crashed] true. *)
Lemma reset_leaves_crashed :
  ~ (forall r s', reset Bench.sunk = Return r s' -> crashed s' = false).
Proof.
  intros H.
  specialize (H true (after reset Bench.sunk)).
  assert (E : reset Bench.sunk = Return true (after reset Bench.sunk))
    by (vm_compute; reflexivity).
  specialize (H E). vm_compute in H. discriminate H.
Qed.

(** C5 as stated fails: [Bench.below_paused] has not crashed and is paused,
    and its [step] issues neither a resume nor a run. *)
Lemma step_while_paused_below :
  ~ (crashed Bench.below_paused = false ->
     is_paused Bench.below_paused = true ->
     exists r s',
       step Bench.below_paused = Return r s' /\
       In CResume (calls s') /\ In CRun (calls s')).
Proof.
  intros H. destruct (H eq_refl eq_refl) as (r & s' & Hs & Hr & _).
  vm_compute in Hs. injection Hs as <- <-.
  cbn in Hr. destruct Hr as [Hr|[]]. discriminate Hr.
Qed.

(** The theorems above, at work on the bench. *)

Lemma step_detects_crash_witness :
  crashed Bench.below = false /\
  altitude (fdmexec Bench.below) < 0 /\
  exists s',
    step Bench.below = Return true s' /\
    crashed s' = true /\ is_paused s' = true /\ calls s' = [CHold].
Proof.
  split; [reflexivity|]. split; [by_computation|].
  destruct (step_detects_crash Bench.below (bench_hold_contract (Bench.factory Bench.sound 0)) eq_refl)
    as (s' & Hs & _ & Hc & Hl & _ & _ & Hp); [by_computation|].
  exists s'. repeat split; assumption.
Defined.

Lemma step_after_crash_noop_witness :
  crashed Bench.wreck = true /\
  step Bench.wreck = Return true Bench.wreck /\
  step_times 7 Bench.wreck = Return true Bench.wreck.
Proof.
  split; [reflexivity|].
  destruct (step_after_crash_noop Bench.wreck eq_refl) as (H1 & H2 & _).
  split; [exact H1|apply H2].
Defined.

Lemma step_while_paused_witness :
  crashed Bench.parked = false /\
  is_paused Bench.parked = true /\
  0 <= altitude (fdmexec Bench.parked) /\
  exists s',
    step Bench.parked = Return true s' /\
    is_paused s' = true /\
    calls s' =
      [CResume; CProcessMessage; CCheckIncrementalHold; CRun; CHold].
Proof.
  split; [reflexivity|]. split; [reflexivity|]. split; [by_computation|].
  destruct (step_while_paused Bench.parked (bench_hold_contract (Bench.factory Bench.sound 0))
              eq_refl eq_refl)
    with (run_result := true)
         (m' := snd (tick_model (fdmexec (after resume Bench.parked))))
    as (s' & Hs & _ & Hl & _ & _ & Hp);
    [by_computation|reflexivity|].
  exists s'. repeat split; assumption.
Defined.

Lemma resume_guarded_witness :
  resume Bench.wreck = Return tt Bench.wreck /\
  exists s',
    resume Bench.parked = Return tt s' /\
    is_paused s' = false /\ IntegrationSuspended (fdmexec s') = false.
Proof.
  split.
  - apply (resume_guarded Bench.wreck (bench_resume_contract (Bench.factory Bench.sound 0))).
    reflexivity.
  - destruct (resume_guarded Bench.parked (bench_resume_contract (Bench.factory Bench.sound 0)))
      as [_ H].
    destruct (H eq_refl) as (s' & Hs & _ & _ & _ & Hp & Hi).
    exists s'. repeat split; assumption.
Defined.

Lemma create_simulator_validates_witness :
  (exists sim,
      create_simulator (Bench.builder 100 true) = Returned (Some sim) /\
      is_paused sim = true) /\
  create_simulator (fdm := Bench.fdm_stalling) (Bench.builder 100 true)
  = Returned None.
Proof.
  split.
  - destruct (create_simulator_validates (Bench.builder 100 true)
                (bench_hold_contract (Bench.factory Bench.sound 0)))
      as (_ & _ & _ & H & _).
    destruct (H (after step (new_simulator (Bench.builder 100 true))))
      as (Hc & _ & Hp); [by_computation|reflexivity|].
    eexists. split; [exact Hc|exact Hp].
  - destruct (create_simulator_validates
                (fdm := Bench.fdm_stalling) (Bench.builder 100 true)
                (bench_hold_contract (Bench.factory Bench.stalling 0)))
      as (_ & H & _).
    apply (H (after (step (fdm := Bench.fdm_stalling))
                    (new_simulator (fdm := Bench.fdm_stalling)
                                   (Bench.builder 100 true)))).
    by_computation.
Defined.

Lemma step_fault_raises_witness :
  crashed Bench.faulty = false /\
  0 <= altitude (fdmexec Bench.faulty) /\
  fst (Run (fdmexec (after resume Bench.faulty))) = Fault /\
  exists s', step Bench.faulty = Raise SimulationError s'.
Proof.
  split; [reflexivity|]. split; [by_computation|]. split; [reflexivity|].
  destruct (step_fault_raises Bench.faulty eq_refl) as (s' & Hs & _);
    [by_computation|reflexivity|].
  exists s'. exact Hs.
Defined.

Lemma run_for_negative_witness :
  -1 < 0 /\
  run_for 5 (-1) Bench.cruising = Some (Return false Bench.cruising).
Proof.
  split; [by_computation|].
  apply (run_for_negative 5 (-1) Bench.cruising). by_computation.
Defined.

Lemma step_fault_leaves_resumed_witness :
  is_paused Bench.faulty = true /\
  exists s',
    step Bench.faulty = Raise SimulationError s' /\
    is_paused s' = false /\
    ~ In CHold (calls s').
Proof.
  split; [reflexivity|].
  assert (Hc : crashed Bench.faulty = false) by reflexivity.
  assert (Hp : is_paused Bench.faulty = true) by reflexivity.
  assert (Halt : 0 <= altitude (fdmexec Bench.faulty)) by by_computation.
  assert (Hf : fst (tick_model (fdmexec (after resume Bench.faulty))) = Fault)
    by reflexivity.
  destruct (step_fault_leaves_resumed Bench.faulty Hc Hp Halt Hf)
    as (s' & cmds & Hs & Hl & _ & Hno & _ & Hfree).
  exists s'. split; [exact Hs|]. split.
  - apply Hfree;
      [apply (bench_resume_contract (Bench.factory Bench.sound 0))
      |reflexivity].
  - rewrite Hl. exact Hno.
Defined.

(** C10 as stated fails: on an engine whose incremental-hold check sets the
    hold flag, and whose run then faults, the simulator that was paused on
    entry is paused when [SimulationError] reaches the caller, though [step]
    has issued no [Hold]. *)
Lemma step_fault_left_held :
  ~ (crashed Bench.faulty = false ->
     @is_paused _ Bench.fdm_incremental Bench.faulty = true ->
     forall s',
       step (fdm := Bench.fdm_incremental) Bench.faulty
       = Raise SimulationError s' ->
       @is_paused _ Bench.fdm_incremental s' = false).
Proof.
  intros H.
  specialize (H eq_refl eq_refl
                (after (step (fdm := Bench.fdm_incremental)) Bench.faulty)).
  assert (E : step (fdm := Bench.fdm_incremental) Bench.faulty =
              Raise SimulationError
                    (after (step (fdm := Bench.fdm_incremental)) Bench.faulty))
    by by_computation.
  specialize (H E). vm_compute in H. discriminate H.
Qed.

End Flights.

(** ** Further properties: the branches of [step], [run], the controls *)

Section Stepping.

Context {M : Type} {fdm : FDMExec M}.

(** X1: on a simulator that has not crashed, is not paused and is not below
    0.0, a [step] whose tick returns is that tick and nothing else: the
    three commands of the tick are issued, no hold and no resume, the flags
    of the object are unchanged and the result is the run's result. *)
Theorem step_while_running (s : Simulator M) :
  crashed s = false ->
  is_paused s = false ->
  0 <= altitude (fdmexec s) ->
  forall run_result m',
    tick_model (fdmexec s) = (Done run_result, m') ->
    step s =
    Return run_result
      (mkSimulator m' (trim_mode s) false (start_paused s)
                   (calls s ++ [CProcessMessage; CCheckIncrementalHold; CRun])).
Proof.
  intros Hc Hp Halt r m' Ht.
  rewrite (step_tick_branch s Hc Halt), Hp. cbn [when].
  unfold after at 1. unfold ret at 1.
  pose proof (tick_total s) as Htot. rewrite Ht in Htot.
  destruct Htot as [s1 Hs1]. rewrite Hs1. unfold after, ret.
  apply tick_returns in Hs1.
  destruct Hs1 as (Hm & Htm & Hc1 & Hsp & Hl).
  rewrite Ht in Hm. injection Hm as Hm.
  destruct s1 as [m1 tm1 c1 sp1 l1]. unfold crashed in *. cbn in *.
  congruence.
Qed.

(** A [step] that does not return success went through the tick. *)
Lemma step_false_flags (s s' : Simulator M) :
  step s = Return false s' ->
  crashed s = false /\ 0 <= altitude (fdmexec s) /\ crashed s' = false.
Proof.
  intros H. destruct (crashed s) eqn:Hc.
  { rewrite (step_crashed_branch s Hc) in H. discriminate. }
  destruct (Qltb (altitude (fdmexec s)) 0) eqn:Halt.
  { apply Qltb_true in Halt. rewrite (step_crash_branch s Hc Halt) in H.
    discriminate. }
  pose proof (step_frame _ _ _ H) as (_ & _ & Hc' & _).
  rewrite Hc, Halt in Hc'. cbn [orb] in Hc'.
  apply Qltb_false in Halt. auto.
Qed.

Lemma step_raise_flags (s s' : Simulator M) (e : exn) :
  step s = Raise e s' ->
  e = SimulationError /\
  crashed s = false /\ 0 <= altitude (fdmexec s) /\ crashed s' = false.
Proof.
  intros H. destruct (crashed s) eqn:Hc.
  { rewrite (step_crashed_branch s Hc) in H. discriminate. }
  destruct (Qltb (altitude (fdmexec s)) 0) eqn:Halt.
  { apply Qltb_true in Halt. rewrite (step_crash_branch s Hc Halt) in H.
    discriminate. }
  apply Qltb_false in Halt.
  rewrite (step_tick_branch s Hc Halt) in H.
  destruct (resume_frame (is_paused s) s) as (Hc0 & _).
  destruct (tick _) as [r s1|e1 s1] eqn:Ht; [discriminate|].
  injection H as <- <-. apply tick_raises in Ht.
  destruct Ht as (_ & _ & Hc1 & _).
  repeat split; try assumption. congruence.
Qed.

(** X2: [step] returns failure only from the tick: the simulator had not
    crashed and was not below 0.0, the engine's run returned false, and the
    simulator has still not crashed afterwards. *)
Theorem step_failure_cause (s s' : Simulator M) :
  step s = Return false s' ->
  crashed s = false /\
  0 <= altitude (fdmexec s) /\
  fst (tick_model (fdmexec (after (when (is_paused s) resume) s)))
  = Done false /\
  crashed s' = false.
Proof.
  intros H. destruct (step_false_flags _ _ H) as (Hc & Halt & Hc').
  split; [exact Hc|]. split; [exact Halt|]. split; [|exact Hc'].
  rewrite (step_tick_branch s Hc Halt) in H.
  destruct (tick _) as [r s1|e s1] eqn:Ht; [|discriminate].
  injection H as -> _. apply tick_returns in Ht. destruct Ht as (Hm & _).
  rewrite Hm. reflexivity.
Qed.

(** X3: [step] raises [SimulationError] only from the tick: when it does,
    the simulator had not crashed and was not below 0.0 on entry, the engine
    faulted in the tick, and [crashed] is still false afterwards. *)
Theorem step_raise_cause (s s' : Simulator M) :
  step s = Raise SimulationError s' ->
  crashed s = false /\
  0 <= altitude (fdmexec s) /\
  fst (tick_model (fdmexec (after (when (is_paused s) resume) s))) = Fault /\
  crashed s' = false.
Proof.
  intros H. destruct (step_raise_flags _ _ _ H) as (_ & Hc & Halt & Hc').
  split; [exact Hc|]. split; [exact Halt|]. split; [|exact Hc'].
  rewrite (step_tick_branch s Hc Halt) in H.
  destruct (tick _) as [r s1|e1 s1] eqn:Ht; [discriminate|].
  apply tick_raises in Ht. destruct Ht as (Hm & _).
  rewrite Hm. reflexivity.
Qed.

(** X4: [run] does not drive a held engine: on a paused simulator it returns
    success and leaves the object as it was, in particular right after
    [pause] (for an engine whose [Hold] makes [Holding] true); on one that
    is not paused it is [step]. *)
Theorem run_respects_pause (s : Simulator M) :
  hold_contract ->
  (is_paused s = true -> run s = Return true s) /\
  run (after pause s) = Return true (after pause s) /\
  (is_paused s = false -> run s = step s).
Proof.
  intros HH.
  assert (Hheld : forall x : Simulator M,
             is_paused x = true -> run x = Return true x).
  { intros x Hp. unfold run, bind, gets, ret. unfold is_paused in Hp.
    rewrite Hp. reflexivity. }
  split; [apply Hheld|]. split.
  - apply Hheld. apply HH.
  - intros Hp. unfold run, bind, gets, ret. unfold is_paused in Hp.
    rewrite Hp. cbn [negb]. destruct (step s); reflexivity.
Qed.

(** X5: [resume] undoes [pause] exactly when the simulator has not crashed:
    after [pause] then [resume] the simulator is paused if and only if it
    has crashed; and after [resume] then [pause] it is paused. *)
Theorem pause_resume_round_trip (s : Simulator M) :
  hold_contract ->
  resume_contract ->
  is_paused (after resume (after pause s)) = crashed s /\
  is_paused (after pause (after resume s)) = true.
Proof.
  intros HH (HR & _ & _). split; [|apply HH].
  assert (Hc : crashed (after pause s) = crashed s) by reflexivity.
  destruct (crashed s) eqn:E.
  - unfold after at 1. unfold resume, bind, gets, ret. rewrite Hc.
    apply HH.
  - unfold after at 1. rewrite (resume_running _ Hc). apply HR.
Qed.

(** X6: [set_aircraft_controls] writes the four setpoints and nothing else,
    whatever the state of the simulator (crashed or paused alike) and
    whatever the values: with setpoints that are independent cells, each
    reads back as given; the flags are unchanged and the only commands
    issued are the four assignments, in the order aileron, elevator, rudder,
    throttle. *)
Theorem set_aircraft_controls_read_back (a e r t : Q) (s : Simulator M) :
  controls_contract ->
  exists s',
    set_aircraft_controls a e r t s = Return tt s' /\
    get_control aileron (fdmexec s') = a /\
    get_control elevator (fdmexec s') = e /\
    get_control rudder (fdmexec s') = r /\
    get_control throttle (fdmexec s') = t /\
    crashed s' = crashed s /\
    trim_mode s' = trim_mode s /\
    start_paused s' = start_paused s /\
    calls s' =
      calls s ++
      [CSetControl aileron a; CSetControl elevator e;
       CSetControl rudder r; CSetControl throttle t].
Proof.
  intros (Hs & Ho & _). destruct s as [m tm c sp l].
  eexists. split; [reflexivity|]. cbn.
  rewrite <- !app_assoc. cbn [app].
  repeat split;
    repeat first [ apply Hs | rewrite Ho by discriminate ].
Qed.

End Stepping.

(** ** Further properties: how [run_for] ends *)

Section Running.

Context {M : Type} {fdm : FDMExec M}.

Lemma run_for_loop_O (end_time : Q) (s : Simulator M) :
  run_for_loop 0 end_time s =
  if Qle_bool (GetSimTime (fdmexec s)) end_time then None
  else Some (Return true s).
Proof. reflexivity. Qed.

Lemma run_for_loop_survivor (fuel : nat) (end_time : Q) (s s' : Simulator M) :
  hold_keeps_time ->
  (crashed s = true -> Qle_bool (GetSimTime (fdmexec s)) end_time = true) ->
  run_for_loop fuel end_time s = Some (Return true s') ->
  crashed s' = false.
Proof.
  intros HT. revert s. induction fuel as [|fuel IH]; intros s Hs.
  - rewrite run_for_loop_O. destruct (Qle_bool _ _) eqn:Ht; [discriminate|].
    intros H. injection H as <-.
    destruct (crashed s) eqn:Hc; [|reflexivity].
    discriminate (Hs eq_refl).
  - rewrite run_for_loop_S. destruct (Qle_bool _ _) eqn:Ht.
    + destruct (step s) as [[] s1|e s1] eqn:Hstep; cbn [negb];
        try discriminate.
      apply IH. intros Hc1.
      destruct (crashed s) eqn:Hc.
      * rewrite (step_crashed_branch s Hc) in Hstep.
        injection Hstep as <-. exact Ht.
      * destruct (Qltb (altitude (fdmexec s)) 0) eqn:Halt.
        -- apply Qltb_true in Halt.
           rewrite (step_crash_branch s Hc Halt) in Hstep.
           injection Hstep as <-. cbn [fdmexec]. rewrite HT. exact Ht.
        -- destruct (step_frame _ _ _ Hstep) as (_ & _ & Hc' & _).
           rewrite Hc, Halt in Hc'. cbn in Hc'. congruence.
    + intros H. injection H as <-.
      destruct (crashed s) eqn:Hc; [|reflexivity].
      discriminate (Hs eq_refl).
Qed.

Lemma run_for_loop_float_O (end_time : pyfloat) (s : Simulator M) :
  run_for_loop_float 0 end_time s =
  if float_leb (GetSimTime (fdmexec s)) end_time then None
  else Some (Return true s).
Proof. reflexivity. Qed.

Lemma run_for_loop_float_S (fuel : nat) (end_time : pyfloat)
      (s : Simulator M) :
  run_for_loop_float (S fuel) end_time s =
  if float_leb (GetSimTime (fdmexec s)) end_time then
    match step s with
    | Return result s' =>
        if negb result then Some (Return false s')
        else run_for_loop_float fuel end_time s'
    | Raise e s' => Some (Raise e s')
    end
  else Some (Return true s).
Proof. reflexivity. Qed.

(** With a number for the end time the loop is [run_for_loop]. *)
Lemma run_for_loop_float_finite (fuel : nat) (e : Q) (s : Simulator M) :
  run_for_loop_float fuel (finite e) s = run_for_loop fuel e s.
Proof.
  revert s. induction fuel as [|fuel IH]; intros s; [reflexivity|].
  rewrite run_for_loop_float_S, run_for_loop_S. cbn [float_leb].
  destruct (Qle_bool _ _); [|reflexivity].
  destruct (step s) as [[] s1|x s1]; cbn [negb]; [apply IH| |]; reflexivity.
Qed.

(** With exact addition and a number for the duration, [run_for_float] is
    [run_for]. *)
Lemma run_for_float_exact (fuel : nat) (t : Q) (s : Simulator M) :
  run_for_float fuel (fun x y => finite (x + y)) (finite t) s =
  run_for fuel t s.
Proof.
  unfold run_for_float, run_for. cbn [float_ltb_0 float_add].
  destruct (Qltb t 0); [reflexivity|]. apply run_for_loop_float_finite.
Qed.

(** With [inf] for the end time the loop is never left with success. *)
Lemma run_for_loop_float_inf (fuel : nat) (s s' : Simulator M) :
  run_for_loop_float fuel plus_infinity s <> Some (Return true s').
Proof.
  revert s. induction fuel as [|fuel IH]; intros s; [discriminate|].
  rewrite run_for_loop_float_S. cbn [float_leb].
  destruct (step s) as [[] s1|e s1]; cbn [negb];
    [apply IH|discriminate|discriminate].
Qed.

(** X7: [run_for] returns success in two ways only.  For a [nan] duration
    it does at once, without a [step] and with the object untouched, crashed
    or not.  Otherwise the duration is a number that is not negative, the
    end time computed from it is a number too, the time has been taken
    strictly past that end time, and the simulator has not crashed: no run
    that meets a crash, or starts crashed, returns success.  (Assumed: the
    clock does not move on [Hold], and the rounded sum of the start time and
    a duration that is not negative is not below the start time.) *)
Theorem run_for_success_not_crashed
        (fuel : nat) (add : Q -> Q -> pyfloat) (d : pyfloat)
        (s s' : Simulator M) :
  hold_keeps_time ->
  monotone_addition add ->
  run_for_float fuel add d s = Some (Return true s') ->
  (d = nan /\ s' = s) \/
  (exists t e,
      d = finite t /\
      0 <= t /\
      add (simulation_time s) t = finite e /\
      e < simulation_time s' /\
      crashed s' = false).
Proof.
  intros HT HA H. unfold run_for_float in H.
  destruct d as [t| | |]; cbn [float_ltb_0 float_add] in H.
  - right. destruct (Qltb t 0) eqn:Ht; [discriminate|].
    apply Qltb_false in Ht.
    destruct (HA (GetSimTime (fdmexec s)) t Ht) as [E|(e & E & Hle)];
      rewrite E in H.
    + exfalso. apply (run_for_loop_float_inf _ _ _ H).
    + rewrite run_for_loop_float_finite in H.
      exists t, e. split; [reflexivity|]. split; [exact Ht|].
      split; [exact E|]. split; [apply (run_for_loop_success _ _ _ _ H)|].
      apply (run_for_loop_survivor _ _ _ _ HT) in H; [exact H|].
      intros _. apply Qle_bool_iff. exact Hle.
  - exfalso. apply (run_for_loop_float_inf _ _ _ H).
  - discriminate.
  - left. destruct fuel; cbn in H; injection H as <-; split; reflexivity.
Qed.

(** The loop stops with such an outcome exactly when, after some turns that
    each passed the test and stepped with success, the test is passed once
    more and the [step] then made ends with that outcome. *)
Lemma run_for_loop_stops (fuel : nat) (end_time : pyfloat) (s : Simulator M)
      (o : outcome M bool) :
  stopping o ->
  (run_for_loop_float fuel end_time s = Some o <->
   exists n s0,
     (n < fuel)%nat /\
     turns n end_time s = Some s0 /\
     float_leb (simulation_time s0) end_time = true /\
     step s0 = o).
Proof.
  intros Ho. unfold simulation_time.
  revert s. induction fuel as [|fuel IH]; intros s.
  - rewrite run_for_loop_float_O. split.
    + destruct (float_leb _ _); [discriminate|].
      intros H. injection H as <-. contradiction.
    + intros (n & s0 & Hn & _). inversion Hn.
  - rewrite run_for_loop_float_S. split.
    + destruct (float_leb _ _) eqn:Ht.
      * destruct (step s) as [[] s1|e s1] eqn:Hs; cbn [negb].
        -- intros H. apply IH in H.
           destruct H as (n & s0 & Hn & Htr & Hle & Hst).
           exists (S n), s0.
           split; [apply (proj1 (Nat.succ_lt_mono _ _) Hn)|].
           split; [|split; assumption].
           cbn [turns]. rewrite Ht, Hs. exact Htr.
        -- intros H. injection H as <-. exists O, s.
           split; [apply Nat.lt_0_succ|]. repeat split; assumption.
        -- intros H. injection H as <-. exists O, s.
           split; [apply Nat.lt_0_succ|]. repeat split; assumption.
      * intros H. injection H as <-. contradiction.
    + intros (n & s0 & Hn & Htr & Hle & Hst). destruct n as [|n].
      * cbn [turns] in Htr. injection Htr as <-. rewrite Hle, Hst.
        destruct o as [[] s1|e s1]; [contradiction|reflexivity|reflexivity].
      * cbn [turns] in Htr.
        destruct (float_leb (GetSimTime (fdmexec s)) end_time);
          [|discriminate].
        destruct (step s) as [[] s1|e s1]; try discriminate. cbn [negb].
        apply IH. exists n, s0.
        split; [apply (proj2 (Nat.succ_lt_mono _ _) Hn)|].
        repeat split; assumption.
Qed.

(** X8: [run_for] returns failure in two ways only, and in each of them
    does: for a duration below 0.0, with the object untouched; or when,
    after some turns of its loop that each found the time not past the end
    time and stepped with success, the time is again not past it and the
    [step] then made returns failure, the object being as that [step] left
    it, with no further [step].  In the same way it raises
    [SimulationError] exactly when that [step] raises it. *)
Theorem run_for_failure_cause
        (fuel : nat) (add : Q -> Q -> pyfloat) (d : pyfloat)
        (s s' : Simulator M) :
  let end_time := float_add add (simulation_time s) d in
  (run_for_float fuel add d s = Some (Return false s') <->
   (float_ltb_0 d = true /\ s' = s) \/
   (float_ltb_0 d = false /\
    exists n s0,
      (n < fuel)%nat /\
      turns n end_time s = Some s0 /\
      float_leb (simulation_time s0) end_time = true /\
      step s0 = Return false s')) /\
  (run_for_float fuel add d s = Some (Raise SimulationError s') <->
   float_ltb_0 d = false /\
   exists n s0,
     (n < fuel)%nat /\
     turns n end_time s = Some s0 /\
     float_leb (simulation_time s0) end_time = true /\
     step s0 = Raise SimulationError s').
Proof.
  intros end_time. unfold run_for_float. fold (simulation_time s).
  cbv zeta. fold end_time. destruct (float_ltb_0 d).
  - split; split.
    + intros H. injection H as <-. left. split; reflexivity.
    + intros [[_ ->]|[Hge _]]; [reflexivity|discriminate].
    + discriminate.
    + intros [Hge _]. discriminate.
  - split.
    + rewrite (run_for_loop_stops fuel _ s (Return false s') I). split.
      * intros H. right. split; [reflexivity|exact H].
      * intros [[Hneg _]|[_ H]]; [discriminate|exact H].
    + rewrite (run_for_loop_stops fuel _ s (Raise SimulationError s') I).
      split.
      * intros H. split; [reflexivity|exact H].
      * intros [_ H]. exact H.
Qed.

Lemma run_for_loop_progress
      (I : Simulator M -> Prop) (d : Q) (end_time : Q) :
  (forall s,
      I s ->
      simulation_time s <= end_time ->
      exists s',
        step s = Return true s' /\ I s' /\
        simulation_time s + d <= simulation_time s') ->
  forall (n : nat) (s : Simulator M),
    I s ->
    end_time - simulation_time s < inject_Z (Z.of_nat n) * d ->
    exists s', run_for_loop n end_time s = Some (Return true s') /\ I s'.
Proof.
  intros Hstep n. induction n as [|n IH]; intros s Hs Hn.
  - rewrite run_for_loop_O. destruct (Qle_bool _ _) eqn:Ht.
    + apply Qle_bool_iff in Ht. unfold simulation_time in Hn.
      change (inject_Z (Z.of_nat 0)) with 0 in Hn. lra.
    + exists s. split; [reflexivity|exact Hs].
  - rewrite run_for_loop_S. destruct (Qle_bool _ _) eqn:Ht.
    + apply Qle_bool_iff in Ht.
      destruct (Hstep s Hs Ht) as (s1 & Hs1 & HI1 & Hd).
      rewrite Hs1. cbn [negb]. apply IH; [exact HI1|].
      rewrite Nat2Z.inj_succ in Hn. unfold Z.succ in Hn.
      rewrite inject_Z_plus in Hn.
      change (inject_Z 1) with 1 in Hn.
      set (k := inject_Z (Z.of_nat n)) in *.
      assert (E : (k + 1) * d == k * d + d) by ring.
      rewrite E in Hn. lra.
    + exists s. split; [reflexivity|exact Hs].
Qed.

(** X9: [run_for] does return when the end time is a number and the flight
    makes progress up to it: if some condition on the simulator is kept by
    [step] as long as the time is not past the end time, [step] then
    returning success and moving the clock on by at least a fixed [d > 0],
    then for a duration that is not negative there is a number of
    iterations after which [run_for] has returned success, the condition
    still holding.  Nothing is asked of [step] once the time is past the end
    time. *)
Theorem run_for_terminates
        (I : Simulator M -> Prop) (add : Q -> Q -> pyfloat)
        (d t e : Q) (s : Simulator M) :
  0 < d ->
  0 <= t ->
  add (simulation_time s) t = finite e ->
  (forall x,
      I x ->
      simulation_time x <= e ->
      exists x',
        step x = Return true x' /\ I x' /\
        simulation_time x + d <= simulation_time x') ->
  I s ->
  exists fuel s',
    run_for_float fuel add (finite t) s = Some (Return true s') /\ I s'.
Proof.
  intros Hd Ht He Hstep Hs.
  destruct (Qarchimedean ((e - simulation_time s) / d)) as [p Hp].
  exists (Pos.to_nat p). unfold run_for_float. cbn [float_ltb_0 float_add].
  replace (Qltb t 0) with false by (symmetry; apply Qltb_false; exact Ht).
  fold (simulation_time s). cbv zeta. rewrite He.
  rewrite run_for_loop_float_finite.
  apply (run_for_loop_progress I d _ Hstep); [exact Hs|].
  rewrite positive_nat_Z.
  assert (Hne : ~ d == 0) by lra.
  assert (E2 : e - simulation_time s == (e - simulation_time s) / d * d)
    by (field; exact Hne).
  rewrite E2. apply Qmult_lt_compat_r; [exact Hd|exact Hp].
Qed.

End Running.

(** ** Further properties: sessions, construction and reset *)

Section Lifecycle.

Context {M : Type} {fdm : FDMExec M}.

Lemma resume_keeps_trim_mode (b : bool) (s : Simulator M) :
  trim_mode (after (when b resume) s) = trim_mode s.
Proof.
  destruct b; [|reflexivity]. cbn [when]. destruct (crashed s) eqn:Hc.
  - unfold after, resume, bind, gets, ret. rewrite Hc. reflexivity.
  - unfold after. rewrite (resume_running s Hc). reflexivity.
Qed.

Lemma resume_crashed_noop (s : Simulator M) :
  crashed s = true -> after resume s = s.
Proof.
  intros Hc. unfold after, resume, bind, gets, ret. rewrite Hc. reflexivity.
Qed.

(** The flags after a [step], however it ended. *)
Lemma step_after (s : Simulator M) :
  trim_mode (after step s) = trim_mode s /\
  start_paused (after step s) = start_paused s /\
  crashed (after step s) = crashed s || Qltb (altitude (fdmexec s)) 0.
Proof.
  unfold after. destruct (step s) as [r s'|e s'] eqn:Hs.
  - destruct (step_frame _ _ _ Hs) as (H1 & H2 & H3 & _). auto.
  - destruct (step_raise_flags _ _ _ Hs) as (_ & Hc & Halt & Hc').
    rewrite (step_tick_branch s Hc Halt) in Hs.
    destruct (tick _) as [r s1|e1 s1] eqn:Ht; [discriminate|].
    injection Hs as _ <-. apply tick_raises in Ht.
    destruct Ht as (_ & Htm & _ & Hsp & _).
    destruct (resume_frame (is_paused s) s) as (_ & Hsp0 & _).
    rewrite Htm, Hsp, Hsp0, resume_keeps_trim_mode, Hc, Hc'.
    replace (Qltb (altitude (fdmexec s)) 0) with false
      by (symmetry; apply Qltb_false; exact Halt).
    auto.
Qed.

Lemma step_keeps_held (s : Simulator M) :
  hold_contract ->
  (crashed s = true -> is_paused s = true) ->
  crashed (after step s) = true -> is_paused (after step s) = true.
Proof.
  intros HH Inv. destruct (crashed s) eqn:Hc.
  - unfold after. rewrite (step_crashed_branch s Hc). intros _. auto.
  - destruct (Qltb (altitude (fdmexec s)) 0) eqn:Halt.
    + apply Qltb_true in Halt. unfold after.
      rewrite (step_crash_branch s Hc Halt). intros _. apply HH.
    + destruct (step_after s) as (_ & _ & Hc').
      rewrite Hc, Halt in Hc'. cbn in Hc'. congruence.
Qed.

Lemma run_after (s : Simulator M) :
  after run s = if is_paused s then s else after step s.
Proof.
  unfold after at 1. unfold run, bind, gets, ret, is_paused.
  destruct (Holding (fdmexec s)); cbn [negb]; [reflexivity|].
  unfold after. destruct (step s); reflexivity.
Qed.

Lemma at_validation_flags (s : Simulator M) :
  trim_mode (at_validation s) = trim_mode s /\
  start_paused (at_validation s) = start_paused s /\
  crashed (at_validation s) = false.
Proof.
  unfold at_validation. destruct (trim _ _) as [[] m3]; repeat split.
Qed.

(** The object after a [reset] that went past the solver, however it
    ended. *)
Lemma reset_after (s : Simulator M) :
  fst (RunIC (to_initial_conditions s)) = true ->
  after reset s =
  match step (at_validation s) with
  | Return true s' => after (when (negb (start_paused s')) resume) s'
  | Return false s' | Raise _ s' => s'
  end.
Proof.
  intros Hic. unfold after at 1. rewrite (reset_unfold s), Hic.
  destruct (step (at_validation s)) as [[] s'|e s']; reflexivity.
Qed.

Lemma reset_after_failed_solver (s : Simulator M) :
  fst (RunIC (to_initial_conditions s)) = false ->
  trim_mode (after reset s) = trim_mode s /\
  start_paused (after reset s) = start_paused s /\
  crashed (after reset s) = false.
Proof.
  intros Hic. unfold after. rewrite (reset_unfold s), Hic. repeat split.
Qed.

Lemma reset_keeps_config (s : Simulator M) :
  trim_mode (after reset s) = trim_mode s /\
  start_paused (after reset s) = start_paused s.
Proof.
  destruct (fst (RunIC (to_initial_conditions s))) eqn:Hic.
  - rewrite (reset_after s Hic).
    destruct (at_validation_flags s) as (Htm & Hsp & _).
    destruct (step_after (at_validation s)) as (Htm1 & Hsp1 & _).
    unfold after in Htm1, Hsp1.
    destruct (step (at_validation s)) as [[] s'|e s'].
    + rewrite resume_keeps_trim_mode.
      destruct (resume_frame (negb (start_paused s')) s') as (_ & Hsp2 & _).
      rewrite Hsp2. split; congruence.
    + split; congruence.
    + split; congruence.
  - destruct (reset_after_failed_solver s Hic) as (H1 & H2 & _). auto.
Qed.

Lemma reset_keeps_held (s : Simulator M) :
  hold_contract ->
  crashed (after reset s) = true -> is_paused (after reset s) = true.
Proof.
  intros HH. destruct (fst (RunIC (to_initial_conditions s))) eqn:Hic.
  - rewrite (reset_after s Hic).
    destruct (at_validation_flags s) as (_ & _ & Hcv).
    assert (Hk := step_keeps_held (at_validation s) HH).
    unfold after in Hk.
    destruct (step (at_validation s)) as [[] s'|e s'];
      try (apply Hk; intros Hx; congruence).
    destruct (resume_frame (negb (start_paused s')) s') as (Hc2 & _).
    rewrite Hc2. intros Hc. destruct (negb (start_paused s')).
    + cbn [when]. rewrite (resume_crashed_noop s' Hc).
      apply Hk; [intros Hx; congruence|exact Hc].
    + apply Hk; [intros Hx; congruence|exact Hc].
  - destruct (reset_after_failed_solver s Hic) as (_ & _ & Hc). congruence.
Qed.

(** A condition that every ended [step] keeps is kept by the loop of
    [run_for]. *)
Lemma run_for_loop_keeps (P : Simulator M -> Prop) :
  (forall x, P x -> P (after step x)) ->
  forall fuel end_time s o,
    P s -> run_for_loop fuel end_time s = Some o -> P (state_of o).
Proof.
  intros Hstep fuel end_time. induction fuel as [|fuel IH]; intros s o Hs.
  - rewrite run_for_loop_O. destruct (Qle_bool _ _); [discriminate|].
    intros H. injection H as <-. exact Hs.
  - rewrite run_for_loop_S. destruct (Qle_bool _ _).
    + specialize (Hstep s Hs). unfold after in Hstep.
      destruct (step s) as [[] s1|e s1]; cbn [negb].
      * apply IH, Hstep.
      * intros H. injection H as <-. exact Hstep.
      * intros H. injection H as <-. exact Hstep.
    + intros H. injection H as <-. exact Hs.
Qed.

Lemma run_for_keeps (P : Simulator M -> Prop) :
  (forall x, P x -> P (after step x)) ->
  forall fuel t s o, P s -> run_for fuel t s = Some o -> P (state_of o).
Proof.
  intros Hstep fuel t s o Hs. unfold run_for. destruct (Qltb t 0).
  - intros H. injection H as <-. exact Hs.
  - apply (run_for_loop_keeps P Hstep), Hs.
Qed.

Lemma session_keeps (P : Simulator M -> Prop) (ok : Method -> bool) :
  (forall m s s', ok m = true -> P s -> invoke m s = Some s' -> P s') ->
  forall ms s s',
    forallb ok ms = true -> P s -> session ms s = Some s' -> P s'.
Proof.
  intros Hinv ms. induction ms as [|m ms IH]; intros s s' Hok Hs.
  - intros H. injection H as <-. exact Hs.
  - cbn [forallb] in Hok. apply andb_true_iff in Hok. destruct Hok as [Hm Hms].
    cbn [session]. destruct (invoke m s) as [s1|] eqn:Hi; [|discriminate].
    apply (IH s1 s' Hms). apply (Hinv m s s1 Hm Hs Hi).
Qed.

(** X10: [crashed] is a latch that only [reset] opens: in a session that
    makes no [reset], started on a crashed simulator, the simulator is
    crashed after every call, and the only commands that have reached the
    engine are holds and writes of setpoints: no resume and no run, whatever
    the number of [step], [run], [resume] and [run_for] calls. *)
Theorem crashed_until_reset
        (ms : list Method) (s s' : Simulator M) :
  forallb (fun m => negb (is_reset m)) ms = true ->
  crashed s = true ->
  session ms s = Some s' ->
  crashed s' = true /\
  exists cmds, calls s' = calls s ++ cmds /\ Forall harmless cmds.
Proof.
  intros Hok Hc Hsess.
  set (P := fun x : Simulator M =>
              crashed x = true /\
              exists cmds, calls x = calls s ++ cmds /\ Forall harmless cmds).
  assert (Hstep : forall x, P x -> P (after step x)).
  { intros x Hx. unfold after.
    rewrite (step_crashed_branch x (proj1 Hx)). exact Hx. }
  apply (session_keeps P (fun m => negb (is_reset m))) with (ms := ms) (s := s);
    [|exact Hok| |exact Hsess].
  - intros m x x' Hm (Hcx & cmds & Hl & Hall) Hi.
    destruct m; cbn in Hm, Hi; try discriminate.
    + injection Hi as <-. split; [exact Hcx|].
      exists (cmds ++ [CHold]). cbn. rewrite Hl, <- app_assoc.
      split; [reflexivity|]. apply Forall_app. split; [exact Hall|].
      constructor; [left; reflexivity|constructor].
    + injection Hi as <-. rewrite (resume_crashed_noop x Hcx).
      split; [exact Hcx|]. exists cmds. auto.
    + injection Hi as <-. apply Hstep. split; [exact Hcx|]. exists cmds. auto.
    + injection Hi as <-. rewrite run_after.
      destruct (is_paused x); [|apply Hstep];
        (split; [exact Hcx|]; exists cmds; auto).
    + injection Hi as <-. split; [exact Hcx|].
      exists (cmds ++ [CSetControl aileron a; CSetControl elevator e;
                       CSetControl rudder r; CSetControl throttle t]).
      cbn. rewrite Hl, <- !app_assoc. split; [reflexivity|].
      apply Forall_app. split; [exact Hall|].
      repeat (apply Forall_cons; [right; eexists; eexists; reflexivity|]).
      apply Forall_nil.
    + destruct (run_for fuel time_to_run x) as [o|] eqn:Hr; [|discriminate].
      injection Hi as <-.
      apply (run_for_keeps P Hstep _ _ _ _ (conj Hcx (ex_intro _ cmds (conj Hl Hall))) Hr).
  - split; [exact Hc|]. exists []. rewrite app_nil_r. split; constructor.
Qed.

(** X11: a crashed simulator is a paused one, and no call changes that: if
    [crashed] implies paused before a session of any calls, [reset]
    included, it does after it (for an engine whose [Hold] makes [Holding]
    true and whose setpoint writes leave the hold flag alone). *)
Theorem crashed_stays_held (ms : list Method) (s s' : Simulator M) :
  hold_contract ->
  controls_keep_hold ->
  (crashed s = true -> is_paused s = true) ->
  session ms s = Some s' ->
  crashed s' = true -> is_paused s' = true.
Proof.
  intros HH HK Hs Hsess.
  set (P := fun x : Simulator M => crashed x = true -> is_paused x = true).
  assert (Hstep : forall x, P x -> P (after step x)).
  { intros x Hx Hc. apply (step_keeps_held x HH Hx Hc). }
  apply (session_keeps P (fun _ => true)) with (ms := ms) (s := s);
    [|apply forallb_forall; reflexivity|exact Hs|exact Hsess].
  intros m x x' _ Hx Hi. unfold P in Hx |- *. destruct m; cbn in Hi.
  - injection Hi as <-. intros _. apply HH.
  - injection Hi as <-. destruct (crashed x) eqn:Hcx.
    + rewrite (resume_crashed_noop x Hcx). intros _. apply Hx. reflexivity.
    + destruct (resume_frame true x) as (Hc' & _). cbn [when] in Hc'.
      intros Hc. congruence.
  - injection Hi as <-. apply (Hstep x Hx).
  - injection Hi as <-. rewrite run_after. pose proof (Hstep x Hx) as Hst.
    destruct (is_paused x) eqn:Hp; [intros Hc; rewrite <- Hp; auto|exact Hst].
  - injection Hi as <-. apply (reset_keeps_held x HH).
  - injection Hi as <-. intros Hc. unfold is_paused. cbn.
    rewrite !HK. apply Hx. exact Hc.
  - destruct (run_for fuel time_to_run x) as [o|] eqn:Hr; [|discriminate].
    injection Hi as <-. apply (run_for_keeps P Hstep _ _ _ _ Hx Hr).
Qed.

(** X12: no method writes the configuration of a simulator: after a session
    of any calls, [trim_mode] and [start_paused] are what they were. *)
Theorem configuration_never_changes (ms : list Method) (s s' : Simulator M) :
  session ms s = Some s' ->
  trim_mode s' = trim_mode s /\ start_paused s' = start_paused s.
Proof.
  intros Hsess.
  set (P := fun x : Simulator M =>
              trim_mode x = trim_mode s /\ start_paused x = start_paused s).
  assert (Hstep : forall x, P x -> P (after step x)).
  { intros x [H1 H2]. destruct (step_after x) as (H3 & H4 & _).
    split; congruence. }
  apply (session_keeps P (fun _ => true)) with (ms := ms) (s := s);
    [|apply forallb_forall; reflexivity|split; reflexivity|exact Hsess].
  intros m x x' _ [H1 H2] Hi. destruct m; cbn in Hi.
  - injection Hi as <-. split; assumption.
  - injection Hi as <-.
    pose proof (resume_keeps_trim_mode true x) as H3.
    destruct (resume_frame true x) as (_ & H4 & _). cbn [when] in H3, H4.
    split; congruence.
  - injection Hi as <-. apply Hstep. split; assumption.
  - injection Hi as <-. rewrite run_after.
    destruct (is_paused x); [|apply Hstep]; split; assumption.
  - injection Hi as <-. destruct (reset_keeps_config x) as [H3 H4].
    split; congruence.
  - injection Hi as <-. split; assumption.
  - destruct (run_for fuel time_to_run x) as [o|] eqn:Hr; [|discriminate].
    injection Hi as <-.
    apply (run_for_keeps P Hstep _ _ _ _ (conj H1 H2) Hr).
Qed.

End Lifecycle.

Section Construction.

Context {M : Type} {fdm : FDMExec M}.

Lemma new_simulator_flags (b : SimulationBuilder) :
  trim_mode (new_simulator b) = sb_trim_mode b /\
  start_paused (new_simulator b) = sb_start_paused b /\
  crashed (new_simulator b) = false.
Proof.
  unfold new_simulator. destruct (trim _ _) as [[] m]; repeat split.
Qed.

(** X13: the simulator that [create_simulator] returns carries the
    builder's trim mode and pause policy; it is already crashed exactly when
    the engine was below 0.0 at the validation [step] (which then returned
    success, so that construction did not fail), and it is then paused; and
    it is paused when [start_paused] is set (for an engine whose [Hold]
    makes [Holding] true). *)
Theorem create_simulator_result
        (b : SimulationBuilder) (sim : Simulator M) :
  hold_contract ->
  create_simulator b = Returned (Some sim) ->
  trim_mode sim = sb_trim_mode b /\
  start_paused sim = sb_start_paused b /\
  crashed sim = Qltb (altitude (fdmexec (new_simulator b))) 0 /\
  (crashed sim = true -> is_paused sim = true) /\
  (sb_start_paused b = true -> is_paused sim = true).
Proof.
  intros HH. unfold create_simulator.
  destruct (new_simulator_flags b) as (Htm & Hsp & Hc).
  pose proof (step_keeps_held (new_simulator b) HH) as Hheld.
  unfold after in Hheld.
  destruct (step (new_simulator b)) as [[] s1|e s1] eqn:Hs;
    cbn [negb]; try discriminate.
  destruct (step_frame _ _ _ Hs) as (Htm1 & Hsp1 & Hc1 & _).
  rewrite Hc in Hc1. cbn [orb] in Hc1.
  assert (Hh1 : crashed s1 = true -> is_paused s1 = true).
  { apply Hheld. intros Hx. congruence. }
  destruct (sb_start_paused b) eqn:Hp.
  - unfold pause, command. intros H. injection H as <-.
    unfold crashed, is_paused, log, with_fdmexec in *.
    cbn [fdmexec trim_mode _crashed start_paused].
    split; [congruence|]. split; [congruence|]. split; [exact Hc1|].
    split; intros _; apply HH.
  - intros H. injection H as <-.
    split; [congruence|]. split; [congruence|]. split; [exact Hc1|].
    split; [exact Hh1|discriminate].
Qed.

(** X14: a failed trim does not stop construction, and the simulator that
    [create_simulator] then returns has its four setpoints at 0.0 (for an
    engine whose setpoints are independent cells that hold, resume and the
    tick leave alone). *)
Theorem create_simulator_after_failed_trim
        (b : SimulationBuilder) (sim : Simulator M) :
  controls_contract ->
  fst (trim (sb_trim_mode b)
            (start_engines (create_fdm (fdm_builder_of b)))) = false ->
  create_simulator b = Returned (Some sim) ->
  forall c, get_control c (fdmexec sim) = 0.
Proof.
  intros K Ht. unfold create_simulator.
  assert (Hz : forall c, get_control c (fdmexec (new_simulator b)) = 0).
  { intros c. unfold new_simulator. fold (fdm_builder_of b).
    destruct (trim _ _) as [[] m]; cbn in Ht |- *; [discriminate|].
    apply (neutral_controls m c K). }
  destruct (step (new_simulator b)) as [[] s1|e s1] eqn:Hs;
    cbn [negb]; try discriminate.
  destruct (step_frame _ _ _ Hs) as (_ & _ & _ & Hk).
  destruct (sb_start_paused b).
  - cbn. intros H c. injection H as <-. cbn.
    destruct K as (K1 & K2 & KH & K').
    rewrite KH. rewrite (Hk (conj K1 (conj K2 (conj KH K')))). apply Hz.
  - intros H c. injection H as <-. rewrite (Hk K). apply Hz.
Qed.

(** X15: with [start_paused] not set, a [reset] that returns success leaves
    the simulator running unless its validation [step] found the aircraft
    below 0.0: afterwards it is paused exactly when it has crashed. *)
Theorem reset_resumes_unless_crashed (s s' : Simulator M) :
  hold_contract ->
  resume_contract ->
  start_paused s = false ->
  reset s = Return true s' ->
  is_paused s' = crashed s'.
Proof.
  intros HH (HR & _ & _) Hsp. rewrite (reset_unfold s).
  destruct (fst (RunIC (to_initial_conditions s))); [|discriminate].
  destruct (at_validation_flags s) as (_ & Hspv & Hcv).
  pose proof (step_keeps_held (at_validation s) HH) as Hheld.
  unfold after in Hheld.
  destruct (step (at_validation s)) as [[] s1|e s1] eqn:Hs; try discriminate.
  destruct (step_frame _ _ _ Hs) as (_ & Hsp1 & _).
  intros H. injection H as <-.
  rewrite Hsp1, Hspv, Hsp. cbn [negb when].
  destruct (crashed s1) eqn:Hc1.
  - rewrite (resume_crashed_noop s1 Hc1), Hc1.
    apply Hheld; [intros Hx; congruence|reflexivity].
  - unfold after. rewrite (resume_running s1 Hc1). cbn. apply HR.
Qed.

(** X16: [reset] returns failure either because the initial-condition
    solver failed, and then it has issued the hold, the four zeroings, the
    reset and the solver run and nothing after them (no engine start, no
    trim, no tick), or because its validation [step] returned failure; the
    simulator is not crashed in either case; and when [reset] raises
    [SimulationError], the solver had succeeded and it is its validation
    [step] that raised it. *)
Theorem reset_failure_cause (s s' : Simulator M) :
  (reset s = Return false s' ->
   crashed s' = false /\
   ((fst (RunIC (to_initial_conditions s)) = false /\
     fdmexec s' = snd (RunIC (to_initial_conditions s)) /\
     calls s' =
       calls s ++
       [CHold; CSetControl aileron 0; CSetControl elevator 0;
        CSetControl rudder 0; CSetControl throttle 0;
        CResetToInitialConditions 0%Z; CRunIC]) \/
    (fst (RunIC (to_initial_conditions s)) = true /\
     step (at_validation s) = Return false s'))) /\
  (reset s = Raise SimulationError s' ->
   fst (RunIC (to_initial_conditions s)) = true /\
   step (at_validation s) = Raise SimulationError s').
Proof.
  rewrite (reset_unfold s).
  destruct (fst (RunIC (to_initial_conditions s))) eqn:Hic.
  - destruct (step (at_validation s)) as [[] s1|e1 s1] eqn:Hs.
    + split; discriminate.
    + split; [|discriminate].
      intros H. injection H as <-.
      split; [apply (step_false_flags _ _ Hs)|]. right. auto.
    + split; [discriminate|].
      intros H. injection H as -> <-. auto.
  - split; [|discriminate].
    intros H. injection H as <-. split; [reflexivity|]. left. auto.
Qed.

End Construction.

(** ** The further properties on the bench engine *)

Section MoreFlights.

#[local] Existing Instance Bench.fdm.

Ltac evaluate := vm_compute; first [reflexivity | discriminate].

Lemma bench_hold_keeps_time (f : FDMBuilder -> Bench.Engine) :
  hold_keeps_time (fdm := Bench.ops f).
Proof. intros m. reflexivity. Qed.

Lemma bench_controls_keep_hold (f : FDMBuilder -> Bench.Engine) :
  controls_keep_hold (fdm := Bench.ops f).
Proof. intros c v m. reflexivity. Qed.

(** In level flight a [step] succeeds, keeps the flight level and moves the
    clock on by 1/10. *)
Lemma bench_level_step (s : Simulator Bench.Engine) :
  Bench.level s ->
  exists s',
    step s = Return true s' /\ Bench.level s' /\
    simulation_time s + (1 # 10) <= simulation_time s'.
Proof.
  intros (Hc & Hh & Hsu & Hsc & Hdt & Hcl & Halt).
  assert (Ht : tick_model (fdmexec s) = (Done true, Bench.advanced (fdmexec s))).
  { unfold tick_model. cbn. unfold Bench.process_message,
      Bench.check_incremental_hold, Bench.run_one.
    repeat (rewrite Hsc; cbn). reflexivity. }
  assert (Hc' : crashed s = false) by exact Hc.
  assert (Hp : is_paused s = false) by exact Hh.
  assert (Halt' : 0 <= altitude (fdmexec s)) by exact Halt.
  rewrite (step_tick_branch s Hc' Halt'), Hp. cbn [when].
  unfold after at 1. unfold ret at 1.
  pose proof (tick_total s) as Htot. rewrite Ht in Htot.
  destruct Htot as [s1 Hs1]. rewrite Hs1. unfold after, ret.
  apply tick_returns in Hs1. destruct Hs1 as (Hm & _ & Hc1 & _).
  rewrite Ht in Hm. injection Hm as Hm.
  exists s1. split; [reflexivity|].
  unfold Bench.level, simulation_time. rewrite <- Hm.
  unfold Bench.advanced. cbn. rewrite Hh, Hsu. cbn. rewrite Hdt.
  repeat split; try assumption; try reflexivity; try lra.
  rewrite <- Hc'. exact Hc1.
Qed.

Lemma step_while_running_witness :
  0 <= altitude (fdmexec Bench.cruising) /\
  exists s',
    step Bench.cruising = Return true s' /\
    calls s' = [CProcessMessage; CCheckIncrementalHold; CRun].
Proof.
  assert (H : 0 <= altitude (fdmexec Bench.cruising)) by evaluate.
  assert (Hc : crashed Bench.cruising = false) by reflexivity.
  assert (Hp : is_paused Bench.cruising = false) by reflexivity.
  split; [exact H|]. eexists. split.
  - apply (step_while_running Bench.cruising Hc Hp H true).
    reflexivity.
  - reflexivity.
Defined.

Lemma step_failure_cause_witness :
  step Bench.stalled = Return false (after step Bench.stalled) /\
  crashed Bench.stalled = false /\
  crashed (after step Bench.stalled) = false.
Proof.
  assert (E : step Bench.stalled = Return false (after step Bench.stalled))
    by evaluate.
  split; [exact E|].
  destruct (step_failure_cause _ _ E) as (H1 & _ & _ & H2).
  split; assumption.
Defined.

Lemma step_raise_cause_witness :
  step Bench.faulty = Raise SimulationError (after step Bench.faulty) /\
  crashed (after step Bench.faulty) = false.
Proof.
  assert (E : step Bench.faulty =
              Raise SimulationError (after step Bench.faulty)) by evaluate.
  split; [exact E|].
  apply (step_raise_cause _ _ E).
Defined.

Lemma run_respects_pause_witness :
  is_paused Bench.parked = true /\
  run Bench.parked = Return true Bench.parked /\
  run (after pause Bench.cruising) = Return true (after pause Bench.cruising).
Proof.
  split; [reflexivity|].
  split.
  - apply (run_respects_pause Bench.parked
             (bench_hold_contract (Bench.factory Bench.sound 0))).
    reflexivity.
  - apply (run_respects_pause Bench.cruising
             (bench_hold_contract (Bench.factory Bench.sound 0))).
Defined.

Lemma pause_resume_round_trip_witness :
  is_paused (after resume (after pause Bench.cruising)) = false /\
  is_paused (after resume (after pause Bench.wreck)) = true.
Proof.
  split.
  - apply (pause_resume_round_trip Bench.cruising
             (bench_hold_contract (Bench.factory Bench.sound 0))
             (bench_resume_contract (Bench.factory Bench.sound 0))).
  - apply (pause_resume_round_trip Bench.wreck
             (bench_hold_contract (Bench.factory Bench.sound 0))
             (bench_resume_contract (Bench.factory Bench.sound 0))).
Defined.

Lemma set_aircraft_controls_read_back_witness :
  crashed Bench.wreck = true /\
  exists s',
    set_aircraft_controls (1 # 2) (-1) 7 (3 # 4) Bench.wreck = Return tt s' /\
    get_control aileron (fdmexec s') = 1 # 2 /\
    get_control elevator (fdmexec s') = -1 /\
    get_control rudder (fdmexec s') = 7 /\
    get_control throttle (fdmexec s') = 3 # 4.
Proof.
  split; [reflexivity|].
  destruct (set_aircraft_controls_read_back (1 # 2) (-1) 7 (3 # 4) Bench.wreck
              (bench_controls_contract (Bench.factory Bench.sound 0)))
    as (s' & Hs & Ha & He & Hr & Ht & _).
  exists s'. repeat split; assumption.
Defined.

Lemma bench_monotone_addition : monotone_addition Bench.add.
Proof.
  intros x t Ht. right. exists (x + t). split; [reflexivity|lra].
Qed.

Lemma run_for_success_not_crashed_witness :
  (exists s',
      run_for_float 11 Bench.add (finite 1) Bench.cruising =
      Some (Return true s') /\
      simulation_time Bench.cruising + 1 < simulation_time s' /\
      crashed s' = false) /\
  run_for_float 0 Bench.add nan Bench.wreck = Some (Return true Bench.wreck).
Proof.
  split.
  - set (s' := match run_for_float 11 Bench.add (finite 1) Bench.cruising with
               | Some o => state_of o
               | None => Bench.cruising
               end).
    assert (E : run_for_float 11 Bench.add (finite 1) Bench.cruising =
                Some (Return true s')) by evaluate.
    exists s'. split; [exact E|].
    destruct (run_for_success_not_crashed
                11 Bench.add (finite 1) Bench.cruising s'
                (bench_hold_keeps_time (Bench.factory Bench.sound 0))
                bench_monotone_addition E)
      as [[Hd _]|(t & e & Hd & _ & He & Hpast & Hc)]; [discriminate Hd|].
    injection Hd as <-. injection He as <-. split; assumption.
  - assert (E : run_for_float 0 Bench.add nan Bench.wreck =
                Some (Return true Bench.wreck)) by evaluate.
    destruct (run_for_success_not_crashed
                0 Bench.add nan Bench.wreck Bench.wreck
                (bench_hold_keeps_time (Bench.factory Bench.sound 0))
                bench_monotone_addition E)
      as [[_ _]|(t & e & Hd & _)]; [exact E|discriminate Hd].
Defined.

Lemma run_for_failure_cause_witness :
  run_for_float 5 Bench.add (finite 1) Bench.stalled =
  Some (Return false (after step Bench.stalled)) /\
  exists n s0,
    turns n (finite (simulation_time Bench.stalled + 1)) Bench.stalled =
    Some s0 /\
    step s0 = Return false (after step Bench.stalled).
Proof.
  assert (E : run_for_float 5 Bench.add (finite 1) Bench.stalled =
              Some (Return false (after step Bench.stalled))) by evaluate.
  split; [exact E|].
  destruct (run_for_failure_cause 5 Bench.add (finite 1) Bench.stalled
              (after step Bench.stalled)) as [[H _] _].
  destruct (H E) as [[Hneg _]|(_ & n & s0 & _ & Htr & _ & Hs0)].
  - discriminate Hneg.
  - exists n, s0. split; [exact Htr|exact Hs0].
Defined.

Lemma run_for_terminates_witness :
  Bench.level Bench.cruising /\
  exists fuel s',
    run_for_float fuel Bench.add (finite 3) Bench.cruising =
    Some (Return true s') /\
    Bench.level s'.
Proof.
  assert (L : Bench.level Bench.cruising).
  { unfold Bench.level. cbn. repeat split; evaluate. }
  split; [exact L|].
  apply (run_for_terminates Bench.level Bench.add (1 # 10) 3
           (simulation_time Bench.cruising + 3) Bench.cruising);
    [evaluate|evaluate|reflexivity
    |intros x Hx _; exact (bench_level_step x Hx)|exact L].
Defined.

Lemma crashed_until_reset_witness :
  exists s',
    session [call_step; call_run; call_resume;
             call_set_aircraft_controls 1 1 1 1; call_pause;
             call_run_for 3 (-1); call_step] Bench.wreck = Some s' /\
    crashed s' = true /\
    exists cmds, calls s' = calls Bench.wreck ++ cmds /\ Forall harmless cmds.
Proof.
  destruct (session [call_step; call_run; call_resume;
                     call_set_aircraft_controls 1 1 1 1; call_pause;
                     call_run_for 3 (-1); call_step] Bench.wreck)
    as [s'|] eqn:E; [|vm_compute in E; discriminate E].
  exists s'. split; [reflexivity|].
  apply (crashed_until_reset
           [call_step; call_run; call_resume;
            call_set_aircraft_controls 1 1 1 1; call_pause;
            call_run_for 3 (-1); call_step] Bench.wreck s');
    [reflexivity|reflexivity|exact E].
Defined.

Lemma crashed_stays_held_witness :
  exists s',
    session [call_step; call_step; call_resume; call_run;
             call_set_aircraft_controls 0 0 0 1; call_resume]
            Bench.descending = Some s' /\
    crashed s' = true /\ is_paused s' = true.
Proof.
  destruct (session [call_step; call_step; call_resume; call_run;
                     call_set_aircraft_controls 0 0 0 1; call_resume]
                    Bench.descending)
    as [s'|] eqn:E; [|vm_compute in E; discriminate E].
  exists s'. split; [reflexivity|].
  assert (Hc : crashed s' = true).
  { vm_compute in E. injection E as <-. reflexivity. }
  split; [exact Hc|].
  apply (crashed_stays_held _ Bench.descending s'
           (bench_hold_contract (Bench.factory Bench.sound 0))
           (bench_controls_keep_hold (Bench.factory Bench.sound 0))
           (fun H => H) E Hc).
Defined.

Lemma configuration_never_changes_witness :
  exists s',
    session [call_reset; call_step; call_pause; call_reset; call_run]
            Bench.sunk = Some s' /\
    trim_mode s' = 1%Z /\ start_paused s' = false.
Proof.
  destruct (session [call_reset; call_step; call_pause; call_reset; call_run]
                    Bench.sunk)
    as [s'|] eqn:E; [|vm_compute in E; discriminate E].
  exists s'. split; [reflexivity|].
  apply (configuration_never_changes _ Bench.sunk s' E).
Defined.

Lemma create_simulator_result_witness :
  exists sim,
    create_simulator (Bench.builder (-1) false) = Returned (Some sim) /\
    crashed sim = true /\ is_paused sim = true.
Proof.
  destruct (create_simulator (Bench.builder (-1) false)) as [[sim|]|e] eqn:E;
    [|vm_compute in E; discriminate E|vm_compute in E; discriminate E].
  exists sim. split; [reflexivity|].
  destruct (create_simulator_result (Bench.builder (-1) false) sim
              (bench_hold_contract (Bench.factory Bench.sound 0)) E)
    as (_ & _ & Hc & Hh & _).
  assert (Hc' : crashed sim = true) by (rewrite Hc; evaluate).
  split; [exact Hc'|apply Hh, Hc'].
Defined.

Lemma create_simulator_after_failed_trim_witness :
  exists sim,
    create_simulator (fdm := Bench.fdm_untrimmed) (Bench.builder 100 false)
    = Returned (Some sim) /\
    forall c, @get_control _ Bench.fdm_untrimmed c (fdmexec sim) = 0.
Proof.
  destruct (create_simulator (fdm := Bench.fdm_untrimmed)
                             (Bench.builder 100 false))
    as [[sim|]|e] eqn:E;
    [|vm_compute in E; discriminate E|vm_compute in E; discriminate E].
  exists sim. split; [reflexivity|].
  apply (create_simulator_after_failed_trim
           (fdm := Bench.fdm_untrimmed) (Bench.builder 100 false) sim
           (bench_controls_contract (Bench.factory Bench.untrimmed 0))
           eq_refl E).
Defined.

Lemma reset_resumes_unless_crashed_witness :
  (exists s',
      reset Bench.untrimmable = Return true s' /\
      is_paused s' = false /\ crashed s' = false) /\
  (exists s',
      reset Bench.sunk = Return true s' /\
      is_paused s' = true /\ crashed s' = true).
Proof.
  split.
  - assert (E : reset Bench.untrimmable =
                Return true (after reset Bench.untrimmable)) by evaluate.
    eexists. split; [exact E|].
    pose proof (reset_resumes_unless_crashed Bench.untrimmable _
                  (bench_hold_contract (Bench.factory Bench.sound 0))
                  (bench_resume_contract (Bench.factory Bench.sound 0))
                  eq_refl E) as H.
    assert (Hc : crashed (after reset Bench.untrimmable) = false) by evaluate.
    split; [exact (eq_trans H Hc)|exact Hc].
  - assert (E : reset Bench.sunk = Return true (after reset Bench.sunk))
      by evaluate.
    eexists. split; [exact E|].
    pose proof (reset_resumes_unless_crashed Bench.sunk _
                  (bench_hold_contract (Bench.factory Bench.sound 0))
                  (bench_resume_contract (Bench.factory Bench.sound 0))
                  eq_refl E) as H.
    assert (Hc : crashed (after reset Bench.sunk) = true) by evaluate.
    split; [exact (eq_trans H Hc)|exact Hc].
Defined.

Lemma reset_failure_cause_witness :
  reset Bench.unsolvable = Return false (after reset Bench.unsolvable) /\
  crashed (after reset Bench.unsolvable) = false /\
  ~ In CStartEngines (calls (after reset Bench.unsolvable)).
Proof.
  assert (E : reset Bench.unsolvable =
              Return false (after reset Bench.unsolvable)) by evaluate.
  split; [exact E|].
  destruct (reset_failure_cause Bench.unsolvable (after reset Bench.unsolvable))
    as [H _].
  destruct (H E) as (Hc & [(_ & _ & Hl)|(Hic & _)]).
  - split; [exact Hc|]. rewrite Hl. cbn.
    intros Hin. repeat (destruct Hin as [Hin|Hin]; [discriminate Hin|]).
    exact Hin.
  - exfalso. revert Hic. evaluate.
Defined.

End MoreFlights.

(** ** How [reset] ends *)

Section ResetOutcome.

Context {M : Type} {fdm : FDMExec M}.

(** The setpoints after a [step], however it ended. *)
Lemma step_after_controls (s : Simulator M) :
  controls_contract ->
  forall c,
    get_control c (fdmexec (after step s)) = get_control c (fdmexec s).
Proof.
  intros K c. unfold after. destruct (step s) as [r s'|e s'] eqn:Hs.
  - destruct (step_frame _ _ _ Hs) as (_ & _ & _ & Hk). apply (Hk K).
  - destruct (step_raise_flags _ _ _ Hs) as (_ & Hc & Halt & _).
    rewrite (step_tick_branch s Hc Halt) in Hs.
    destruct (resume_frame (is_paused s) s) as (_ & _ & Hk0).
    destruct (tick _) as [r s1|e1 s1] eqn:Ht; [discriminate|].
    injection Hs as _ <-. apply tick_raises in Ht. destruct Ht as (Hm & _).
    replace (fdmexec s1)
      with (snd (tick_model
                   (fdmexec (after (when (is_paused s) resume) s))))
      by (rewrite Hm; reflexivity).
    rewrite (tick_model_controls _ c K). apply (Hk0 K).
Qed.

(** C2, amended: a [reset] that fails at the initial-condition solver
    returns failure with [crashed] false.  One that goes on ends as its
    validation [step] ends: failure for failure, [SimulationError] for
    [SimulationError], and after a success the final, guarded [resume] when
    [start_paused] is not set; this also after a failed trim.  However it
    ends, [crashed] is then true exactly when the altitude was below 0.0 at
    the validation [step]: the crash detection of every [step] runs there
    too, [reset] then returns success, and the engine is held and stays held
    (for an engine whose [Hold] makes [Holding] true).  The setpoints it
    leaves are those at the validation [step]: all 0.0 when trim failed, the
    trimmed values when it succeeded (for an engine whose setpoints are
    independent cells that hold, resume and the tick leave alone). *)
Theorem reset_outcome (s : Simulator M) :
  let solved := RunIC (to_initial_conditions s) in
  let trimmed := trim (trim_mode s) (start_engines (snd solved)) in
  (fst solved = false ->
   exists s', reset s = Return false s' /\ crashed s' = false) /\
  (fst solved = true ->
   crashed (at_validation s) = false /\
   (fst trimmed = true -> fdmexec (at_validation s) = snd trimmed) /\
   reset s =
     match step (at_validation s) with
     | Return true s1 =>
         Return true (after (when (negb (start_paused s)) resume) s1)
     | Return false s1 => Return false s1
     | Raise e s1 => Raise e s1
     end /\
   crashed (after reset s) = Qltb (altitude (fdmexec (at_validation s))) 0 /\
   (crashed (after reset s) = true ->
    reset s = Return true (after reset s)) /\
   (hold_contract ->
    crashed (after reset s) = true -> is_paused (after reset s) = true) /\
   (controls_contract ->
    (fst trimmed = false ->
     forall c, get_control c (fdmexec (at_validation s)) = 0) /\
    forall c,
      get_control c (fdmexec (after reset s)) =
      get_control c (fdmexec (at_validation s)))).
Proof.
  intros solved trimmed. split; intros Hic.
  - rewrite (reset_unfold s). fold solved. rewrite Hic.
    eexists. split; reflexivity.
  - destruct (at_validation_flags s) as (_ & Hspv & Hcv).
    assert (Heq : reset s =
                  match step (at_validation s) with
                  | Return true s1 =>
                      Return true
                        (after (when (negb (start_paused s)) resume) s1)
                  | Return false s1 => Return false s1
                  | Raise e s1 => Raise e s1
                  end).
    { rewrite (reset_unfold s). fold solved. rewrite Hic.
      destruct (step (at_validation s)) as [[] s1|e s1] eqn:Hs;
        try reflexivity.
      destruct (step_frame _ _ _ Hs) as (_ & Hsp1 & _).
      rewrite Hsp1, Hspv. reflexivity. }
    assert (Hcr : crashed (after reset s) =
                  Qltb (altitude (fdmexec (at_validation s))) 0).
    { rewrite (reset_after s Hic).
      destruct (step_after (at_validation s)) as (_ & _ & Hc').
      unfold after in Hc'. rewrite Hcv in Hc'. cbn [orb] in Hc'.
      destruct (step (at_validation s)) as [[] s1|e s1]; try exact Hc'.
      destruct (resume_frame (negb (start_paused s1)) s1) as (Hc2 & _).
      congruence. }
    split; [exact Hcv|]. split; [|split; [exact Heq|]].
    { unfold at_validation. fold solved. fold trimmed.
      destruct trimmed as [[] m3]; cbn; [reflexivity|discriminate]. }
    split; [exact Hcr|]. split; [|split].
    + intros Hc. unfold after. rewrite Heq.
      unfold after in Hc. rewrite Heq in Hc.
      destruct (step (at_validation s)) as [[] s1|e s1] eqn:Hs.
      * reflexivity.
      * destruct (step_false_flags _ _ Hs) as (_ & _ & Hc1). congruence.
      * destruct (step_raise_flags _ _ _ Hs) as (_ & _ & _ & Hc1). congruence.
    + intros HH. apply (reset_keeps_held s HH).
    + intros K. split.
      * unfold at_validation. fold solved. fold trimmed.
        destruct trimmed as [[] m3]; cbn; [discriminate|].
        intros _ c. apply neutral_controls, K.
      * intros c. rewrite (reset_after s Hic).
        pose proof (step_after_controls (at_validation s) K c) as Hk.
        unfold after in Hk.
        destruct (step (at_validation s)) as [[] s1|e s1]; try exact Hk.
        destruct (resume_frame (negb (start_paused s1)) s1) as (_ & _ & Hk2).
        rewrite (Hk2 K c). exact Hk.
Qed.

End ResetOutcome.

Section ResetFlights.

#[local] Existing Instance Bench.fdm.

(** On the bench: from [Bench.untrimmable] a reset returns success after
    the failed trim, with the setpoints at 0.0 and the simulator running;
    from [Bench.sunk] it returns success with the simulator crashed and
    held. *)
Lemma reset_outcome_witness :
  (exists s',
      reset Bench.untrimmable = Return true s' /\
      crashed s' = false /\
      forall c, get_control c (fdmexec s') = 0) /\
  (exists s',
      reset Bench.sunk = Return true s' /\
      crashed s' = true /\ is_paused s' = true).
Proof.
  split.
  - destruct (reset_outcome Bench.untrimmable) as [_ H].
    destruct (H eq_refl) as (_ & _ & _ & Hcr & _ & _ & Hk).
    assert (E : reset Bench.untrimmable =
                Return true (after reset Bench.untrimmable))
      by (vm_compute; reflexivity).
    exists (after reset Bench.untrimmable). split; [exact E|].
    split; [rewrite Hcr; vm_compute; reflexivity|].
    destruct (Hk (bench_controls_contract (Bench.factory Bench.sound 0)))
      as [Hz Hsame].
    intros c. rewrite (Hsame c). apply Hz. reflexivity.
  - destruct (reset_outcome Bench.sunk) as [_ H].
    destruct (H eq_refl) as (_ & _ & _ & Hcr & Hret & Hheld & _).
    assert (Hc : crashed (after reset Bench.sunk) = true)
      by (rewrite Hcr; vm_compute; reflexivity).
    exists (after reset Bench.sunk). split; [exact (Hret Hc)|].
    split; [exact Hc|].
    apply (Hheld (bench_hold_contract (Bench.factory Bench.sound 0)) Hc).
Defined.

End ResetFlights.
